(** * Offboard flight-pattern server: shallow embedding and verified properties

    The development follows the two source files.

    - [patterns.py]: the trajectory generators [fly_square], [fly_triangle],
      [fly_circle], [fly_star], [fly_infinity], [fly_heart], [fly_spiral],
      [fly_figure8] and their helpers.  A coroutine is modelled by the list of
      vehicle-link calls it issues, in order (sleeps and prints are dropped).
    - [app.py]: the [flight_state] dictionary, [add_log] and the HTTP
      handlers, modelled as functions from a state to an outcome (new state,
      response, link calls, spawned worker).

    Every numeric definition is written once over an interface [Num] (and
    [Trig] for the [math] functions) and used at three instances: binary64
    floats, which is what Python computes with (exactly rounded arithmetic,
    [nan] and the infinities included; the [math] functions are left to
    the C library), the rationals [Q] and the reals [R], where floats are
    idealised. *)

From Stdlib Require Import ZArith QArith Qabs Qround Reals Lra Lia.
From Stdlib Require Import Qreals Machin Floats.SpecFloat.
From Stdlib Require Import Bool Ascii String List.
Import ListNotations.

Set Implicit Arguments.

(** ** Numbers *)

(** The arithmetic the sources use on floats. [of_Z] is the conversion of an
    integer (literal or loop index) to a float, [fgt a b] is [a > b] and
    [ftrunc] is [int(x)], truncation toward zero. *)
Class Num (F : Type) : Type := {
  of_Z : Z -> F;
  fadd : F -> F -> F;
  fsub : F -> F -> F;
  fmul : F -> F -> F;
  fdiv : F -> F -> F;
  fopp : F -> F;
  fabs : F -> F;
  fgt : F -> F -> bool;
  ftrunc : F -> Z
}.

(** The functions and the constant taken from Python's [math] module. *)
Class Trig (F : Type) : Type := {
  fpi : F;
  fcos : F -> F;
  fsin : F -> F;
  fsqrt : F -> F;
  fatan2 : F -> F -> F
}.

Declare Scope float_scope.
Delimit Scope float_scope with fl.
Infix "+" := fadd : float_scope.
Infix "-" := fsub : float_scope.
Infix "*" := fmul : float_scope.
Infix "/" := fdiv : float_scope.
Notation "- x" := (fopp x) : float_scope.

Section Numeric.
Context {F : Type} `{Num F}.

(** Python's [max(a, b)] keeps [a] unless [b > a]. *)
Definition fmax (a b : F) : F := if fgt b a then b else a.

(** A decimal literal [n/d], such as [0.01] or [2.5]. *)
Definition dec (n d : Z) : F := (of_Z n / of_Z d)%fl.

(** [x ** 3]. *)
Definition cube (x : F) : F := (x * x * x)%fl.

(** [range(n)]. *)
Definition range (n : Z) : list Z := map Z.of_nat (seq 0 (Z.to_nat n)).
End Numeric.

Section Degrees.
Context {F : Type} `{Num F} `{Trig F}.

(** [math.degrees(x)] is [x * (180 / pi)]. *)
Definition degrees (x : F) : F := (x * (of_Z 180 / fpi))%fl.
End Degrees.

(** *** The rational instance *)

Definition Qtrunc (q : Q) : Z := Z.quot (Qnum q) (Zpos (Qden q)).

#[export] Instance Q_Num : Num Q := {|
  of_Z := inject_Z;
  fadd := Qplus;
  fsub := Qminus;
  fmul := Qmult;
  fdiv := Qdiv;
  fopp := Qopp;
  fabs := Qabs;
  fgt := fun a b => negb (Qle_bool a b);
  ftrunc := Qtrunc
|}.

(** *** The real instance *)

Definition Rgtb (a b : R) : bool := if Rlt_dec b a then true else false.

Definition Rtrunc (r : R) : Z :=
  if Rle_dec 0 r then Int_part r else Z.opp (Int_part (- r)).

(** [math.atan2(y, x)]: the angle of the point [(x, y)] in [(-pi, pi]]. *)
Definition Ratan2 (y x : R) : R :=
  if Rlt_dec 0 x then atan (y / x)
  else if Rlt_dec x 0 then
    if Rle_dec 0 y then (atan (y / x) + PI)%R else (atan (y / x) - PI)%R
  else if Rlt_dec 0 y then (PI / 2)%R
  else if Rlt_dec y 0 then (- (PI / 2))%R
  else 0%R.

#[export] Instance R_Num : Num R := {|
  of_Z := IZR;
  fadd := Rplus;
  fsub := Rminus;
  fmul := Rmult;
  fdiv := Rdiv;
  fopp := Ropp;
  fabs := Rabs;
  fgt := Rgtb;
  ftrunc := Rtrunc
|}.

#[export] Instance R_Trig : Trig R := {|
  fpi := PI;
  fcos := cos;
  fsin := sin;
  fsqrt := sqrt;
  fatan2 := Ratan2
|}.

(** *** The binary64 instance

    Python's [float] is an IEEE 754 binary64 number: 53 bits of precision,
    exponents below 1024, every operation rounded to the nearest float,
    ties to even.  [S754_nan] is [nan], [S754_infinity] the two
    infinities. *)

(** [float(z)] and the integer literals. *)
Definition b64_of_Z (z : Z) : spec_float :=
  binary_normalize 53 1024 z 0 false.

(** [int(x)] of a finite float, truncation toward zero.  On [nan] and on the
    infinities Python raises [ValueError] and [OverflowError] instead of
    returning: the value given here for them is never to be used, and
    statements about [int] carry the condition [b64_is_finite]. *)
Definition b64_trunc (x : spec_float) : Z :=
  match x with
  | S754_finite s m e =>
      let v := if (0 <=? e)%Z then Z.shiftl (Zpos m) e
               else Z.shiftr (Zpos m) (- e) in
      if s then (- v)%Z else v
  | _ => 0%Z
  end.

Definition b64_is_finite (x : spec_float) : bool :=
  match x with
  | S754_zero _ | S754_finite _ _ _ => true
  | S754_infinity _ | S754_nan => false
  end.

(** [a > b] and [a <= b]; both are false when an operand is [nan]. *)
Definition b64_gt (a b : spec_float) : bool := SFltb b a.
Definition b64_le (a b : spec_float) : bool := SFleb a b.

#[export] Instance B64_Num : Num spec_float | 100 := {|
  of_Z := b64_of_Z;
  fadd := SFadd 53 1024;
  fsub := SFsub 53 1024;
  fmul := SFmul 53 1024;
  fdiv := SFdiv 53 1024;
  fopp := SFopp;
  fabs := SFabs;
  fgt := b64_gt;
  ftrunc := b64_trunc
|}.

(** [math.pi], the float [0x1.921fb54442d18p+1]. *)
Definition b64_pi : spec_float := S754_finite false 7074237752028440 (-51).

(** The [math] module over binary64: the constant is fixed, the functions
    are those of the platform's C library. *)
Definition B64_Trig (libm_cos libm_sin libm_sqrt : spec_float -> spec_float)
  (libm_atan2 : spec_float -> spec_float -> spec_float) : Trig spec_float :=
  {| fpi := b64_pi; fcos := libm_cos; fsin := libm_sin; fsqrt := libm_sqrt;
     fatan2 := libm_atan2 |}.



(** ** The vehicle link

    One constructor per MAVSDK call the two files make on [drone]. *)
Inductive LinkCall (F : Type) : Type :=
| SetPositionNed (north east down yaw : F)
| SetVelocityBody (vx vy vz yaw_rate : F)
| OffboardStart
| OffboardStop
| ActionArm
| ActionDisarm
| ActionTakeoff
| ActionLand
| ActionReturnToLaunch
| ActionKill.

Arguments OffboardStart {F}.
Arguments OffboardStop {F}.
Arguments ActionArm {F}.
Arguments ActionDisarm {F}.
Arguments ActionTakeoff {F}.
Arguments ActionLand {F}.
Arguments ActionReturnToLaunch {F}.
Arguments ActionKill {F}.

(** ** patterns.py *)
Module Patterns.

Section Helpers.
Context {F : Type} `{Num F}.

(** [prepare_offboard]: one seed setpoint, offboard start, then the
    origin setpoint three times. *)
Definition prepare_offboard (height : F) : list (LinkCall F) :=
  [SetPositionNed (of_Z 0) (of_Z 0) height (of_Z 0); OffboardStart]
  ++ repeat (SetPositionNed (of_Z 0) (of_Z 0) height (of_Z 0)) 3.

Definition stop_offboard : list (LinkCall F) := [OffboardStop].

(** [fly_to_position]: [int(duration * 10)] transmissions, then 20 more. *)
Definition fly_to_position (x y z yaw duration : F) : list (LinkCall F) :=
  let steps := ftrunc (duration * of_Z 10)%fl in
  repeat (SetPositionNed x y z yaw) (Z.to_nat steps)
  ++ repeat (SetPositionNed x y z yaw) 20.

(** The [try ... except: stop_offboard; raise] frame shared by every
    [fly_*]: [body] is the list of calls of the [try] block before its
    final [stop_offboard].  [fault = Some k] makes call number [k] of the
    block raise: the calls up to it were attempted, teardown runs, and the
    exception is re-raised ([true]).  A failure inside [stop_offboard] is
    swallowed there. *)
Definition guarded (body : list (LinkCall F)) (fault : option nat)
  : list (LinkCall F) * bool :=
  match fault with
  | Some k =>
      if (k <? length body)%nat
      then (firstn (S k) body ++ stop_offboard, true)
      else (body ++ stop_offboard, false)
  | None => (body ++ stop_offboard, false)
  end.
End Helpers.

Section Loops.
Context {F : Type} `{Num F}.

(** The loop [for i, (x, y, yaw) in enumerate(points): await
    fly_to_position(drone, x, y, height, yaw, flight_time)]. *)
Definition fly_points (height flight_time : F) (points : list (F * F * F))
  : list (LinkCall F) :=
  flat_map (fun '(x, y, yaw) => fly_to_position x y height yaw flight_time)
           points.

(** The [points] table of [fly_square]: [(x, y, yaw)]. *)
Definition square_points (size : F) : list (F * F * F) :=
  [ (of_Z 0, of_Z 0, of_Z 0);
    (size,   of_Z 0, of_Z 90);
    (size,   size,   of_Z 180);
    (of_Z 0, size,   of_Z 270);
    (of_Z 0, of_Z 0, of_Z 0) ].

(** [flight_time = max(3.0, delay * 3)] of [fly_square] and
    [fly_triangle]. *)
Definition flight_time (delay : F) : F :=
  fmax (of_Z 3) (delay * of_Z 3)%fl.

Definition fly_square_body (size height delay : F) : list (LinkCall F) :=
  prepare_offboard height
  ++ fly_points height (flight_time delay) (square_points size).

Definition fly_square (size height delay : F)
  (fault : option nat) : list (LinkCall F) * bool :=
  guarded (fly_square_body size height delay) fault.

(** [flight_time = max(2.5, delay * 2.5)] of [fly_star]. *)
Definition star_flight_time (delay : F) : F :=
  fmax (dec 5 2) (delay * dec 5 2)%fl.

(** [repeat = max(3, int(delay * 10))], recomputed at every sample of a
    curve pattern. *)
Definition repeat_count (delay : F) : Z :=
  Z.max 3 (ftrunc (delay * of_Z 10)%fl).

(** The inner loop [for _ in range(repeat): await
    drone.offboard.set_position_ned(PositionNedYaw(x, y, height, yaw))]. *)
Definition send_sample (height delay : F) (sample : F * F * F)
  : list (LinkCall F) :=
  let '(x, y, yaw) := sample in
  repeat (SetPositionNed x y height yaw) (Z.to_nat (repeat_count delay)).

(** The drawing loop of a curve pattern over its samples. *)
Definition draw (height delay : F) (samples : list (F * F * F))
  : list (LinkCall F) :=
  flat_map (send_sample height delay) samples.


(** The closing loop [for _ in range(20)] on the final position. *)
Definition hold_final (x y height yaw : F) : list (LinkCall F) :=
  repeat (SetPositionNed x y height yaw) 20.
End Loops.

Section Curves.
Context {F : Type} `{Num F} `{Trig F}.

(** *** fly_triangle *)
Definition triangle_points (size : F) : list (F * F * F) :=
  let h := (size * fsqrt (of_Z 3) / of_Z 2)%fl in
  [ (of_Z 0,                of_Z 0, of_Z 60);
    (size,                  of_Z 0, of_Z 180);
    ((size / of_Z 2)%fl,    h,      of_Z 300);
    (of_Z 0,                of_Z 0, of_Z 0) ].

Definition fly_triangle_body (size height delay : F) : list (LinkCall F) :=
  prepare_offboard height
  ++ fly_points height (flight_time delay) (triangle_points size).

Definition fly_triangle (size height delay : F)
  (fault : option nat) : list (LinkCall F) * bool :=
  guarded (fly_triangle_body size height delay) fault.

(** *** fly_star *)
Definition star_vertex (size : F) (i : Z) : F * F :=
  let angle := (of_Z 2 * fpi * of_Z i / of_Z 5 - fpi / of_Z 2)%fl in
  ((size * fcos angle)%fl, (size * fsin angle)%fl).

Definition star_vertices (size : F) : list (F * F) :=
  map (star_vertex size) (range 5).

Definition star_order : list nat := [0; 2; 4; 1; 3; 0]%nat.

(** One entry per element of [order]: the vertex [points[idx]] with
    [yaw = degrees(atan2(y, x))]. *)
Definition star_points (size : F) : list (F * F * F) :=
  map (fun idx =>
         let '(x, y) := nth idx (star_vertices size) (of_Z 0, of_Z 0) in
         (x, y, degrees (fatan2 y x)))
      star_order.

Definition fly_star_body (size height delay : F) : list (LinkCall F) :=
  prepare_offboard height
  ++ fly_points height (star_flight_time delay) (star_points size).

Definition fly_star (size height delay : F)
  (fault : option nat) : list (LinkCall F) * bool :=
  guarded (fly_star_body size height delay) fault.

(** *** fly_circle *)
Definition circle_sample (radius : F) (total_steps i : Z) : F * F * F :=
  let angle := (of_Z 2 * fpi * of_Z i / of_Z total_steps)%fl in
  let x := (radius * fcos angle)%fl in
  let y := (radius * fsin angle)%fl in
  let yaw := degrees (angle + fpi / of_Z 2)%fl in
  (x, y, yaw).

Definition fly_circle_body (radius height : F) (steps : Z) (delay : F)
  : list (LinkCall F) :=
  let total_steps := Z.max steps 100 in
  prepare_offboard height
  ++ fly_to_position radius (of_Z 0) height (of_Z 90) (of_Z 3)
  ++ draw height delay
       (map (circle_sample radius total_steps) (range (total_steps + 1)))
  ++ hold_final (radius * fcos (of_Z 2 * fpi))%fl
                (radius * fsin (of_Z 2 * fpi))%fl height (of_Z 90).

Definition fly_circle (radius height : F) (steps : Z) (delay : F)
  (fault : option nat) : list (LinkCall F) * bool :=
  guarded (fly_circle_body radius height steps delay) fault.

(** *** fly_infinity *)

(** Lemniscate of Gerono. *)
Definition infinity_point (size t : F) : F * F :=
  ((size * fcos t)%fl, (size * fsin t * fcos t)%fl).

Definition infinity_sample (size : F) (total_steps i : Z) : F * F * F :=
  let t := (of_Z 2 * fpi * of_Z i / of_Z total_steps)%fl in
  let '(x, y) := infinity_point size t in
  let yaw :=
    if (i <? total_steps)%Z then
      let t_next := (of_Z 2 * fpi * of_Z (i + 1) / of_Z total_steps)%fl in
      let '(x_next, y_next) := infinity_point size t_next in
      let dx := (x_next - x)%fl in
      let dy := (y_next - y)%fl in
      if fgt (fabs dx) (dec 1 100) || fgt (fabs dy) (dec 1 100)
      then degrees (fatan2 dy dx)
      else of_Z 0
    else of_Z 0 in
  (x, y, yaw).

Definition fly_infinity_body (size height : F) (steps : Z) (delay : F)
  : list (LinkCall F) :=
  let total_steps := Z.max steps 120 in
  prepare_offboard height
  ++ fly_to_position size (of_Z 0) height (of_Z 0) (of_Z 3)
  ++ draw height delay
       (map (infinity_sample size total_steps) (range (total_steps + 1)))
  ++ hold_final size (of_Z 0) height (of_Z 0).

Definition fly_infinity (size height : F) (steps : Z) (delay : F)
  (fault : option nat) : list (LinkCall F) * bool :=
  guarded (fly_infinity_body size height steps delay) fault.

(** *** fly_heart *)
Definition heart_point (size t : F) : F * F :=
  ((size * of_Z 16 * cube (fsin t) / of_Z 16)%fl,
   (size * (of_Z 13 * fcos t - of_Z 5 * fcos (of_Z 2 * t)
            - of_Z 2 * fcos (of_Z 3 * t) - fcos (of_Z 4 * t))
    / of_Z 16)%fl).

Definition heart_sample (size : F) (total_steps i : Z) : F * F * F :=
  let t := (of_Z 2 * fpi * of_Z i / of_Z total_steps)%fl in
  let '(x, y) := heart_point size t in
  let yaw :=
    if (i <? total_steps)%Z then
      let t_next := (of_Z 2 * fpi * of_Z (i + 1) / of_Z total_steps)%fl in
      let '(x_next, y_next) := heart_point size t_next in
      let dx := (x_next - x)%fl in
      let dy := (y_next - y)%fl in
      if fgt (fabs dx) (dec 1 100) || fgt (fabs dy) (dec 1 100)
      then degrees (fatan2 dy dx)
      else of_Z 90
    else of_Z 90 in
  (x, y, yaw).

Definition fly_heart_body (size height : F) (steps : Z) (delay : F)
  : list (LinkCall F) :=
  let total_steps := Z.max steps 150 in
  let '(start_x, start_y) := heart_point size (of_Z 0) in
  prepare_offboard height
  ++ fly_to_position start_x start_y height (of_Z 90) (of_Z 3)
  ++ draw height delay
       (map (heart_sample size total_steps) (range (total_steps + 1)))
  ++ hold_final start_x start_y height (of_Z 90).

Definition fly_heart (size height : F) (steps : Z) (delay : F)
  (fault : option nat) : list (LinkCall F) * bool :=
  guarded (fly_heart_body size height steps delay) fault.

(** *** fly_spiral *)
Definition spiral_sample (max_radius : F) (total_steps i : Z) : F * F * F :=
  let t := (of_Z (5 * 2) * fpi * of_Z i / of_Z total_steps)%fl in
  let radius := (max_radius * of_Z i / of_Z total_steps)%fl in
  let x := (radius * fcos t)%fl in
  let y := (radius * fsin t)%fl in
  let yaw := degrees (t + fpi / of_Z 2)%fl in
  (x, y, yaw).

Definition fly_spiral_body (max_radius height : F) (steps : Z) (delay : F)
  : list (LinkCall F) :=
  let total_steps := Z.max steps 100 in
  prepare_offboard height
  ++ fly_to_position (of_Z 0) (of_Z 0) height (of_Z 0) (of_Z 3)
  ++ draw height delay
       (map (spiral_sample max_radius total_steps) (range (total_steps + 1)))
  ++ hold_final (max_radius * fcos (of_Z (5 * 2) * fpi))%fl
                (max_radius * fsin (of_Z (5 * 2) * fpi))%fl height (of_Z 90).

Definition fly_spiral (max_radius height : F) (steps : Z) (delay : F)
  (fault : option nat) : list (LinkCall F) * bool :=
  guarded (fly_spiral_body max_radius height steps delay) fault.

(** *** fly_figure8 *)

(** Lissajous curve with [scale = size / 1.5]. *)
Definition figure8_point (scale t : F) : F * F :=
  ((scale * fsin t)%fl, (scale * fsin t * fcos t)%fl).

Definition figure8_sample (scale : F) (total_steps i : Z) : F * F * F :=
  let t := (of_Z 2 * fpi * of_Z i / of_Z total_steps)%fl in
  let '(x, y) := figure8_point scale t in
  let yaw :=
    if (i <? total_steps)%Z then
      let t_next := (of_Z 2 * fpi * of_Z (i + 1) / of_Z total_steps)%fl in
      let '(x_next, y_next) := figure8_point scale t_next in
      let dx := (x_next - x)%fl in
      let dy := (y_next - y)%fl in
      if fgt (fabs dx) (dec 1 100) || fgt (fabs dy) (dec 1 100)
      then degrees (fatan2 dy dx)
      else of_Z 90
    else of_Z 90 in
  (x, y, yaw).

Definition fly_figure8_body (size height : F) (steps : Z) (delay : F)
  : list (LinkCall F) :=
  let total_steps := Z.max steps 120 in
  let scale := (size / dec 3 2)%fl in
  let '(start_x, start_y) := figure8_point scale (of_Z 0) in
  prepare_offboard height
  ++ fly_to_position start_x start_y height (of_Z 90) (of_Z 3)
  ++ draw height delay
       (map (figure8_sample scale total_steps) (range (total_steps + 1)))
  ++ hold_final start_x start_y height (of_Z 90).

Definition fly_figure8 (size height : F) (steps : Z) (delay : F)
  (fault : option nat) : list (LinkCall F) * bool :=
  guarded (fly_figure8_body size height steps delay) fault.
End Curves.

End Patterns.

(** ** app.py *)
Module App.

(** [str.lower], on the ASCII letters. *)
Definition lower_ascii (c : ascii) : ascii :=
  let n := nat_of_ascii c in
  if (65 <=? n)%nat && (n <=? 90)%nat then ascii_of_nat (n + 32) else c.

Fixpoint lower (s : string) : string :=
  match s with
  | EmptyString => EmptyString
  | String c rest => String (lower_ascii c) (lower rest)
  end.

(** The dictionary built by [add_log]. *)
Record LogEntry : Type := {
  timestamp : string;
  action : string;
  status : string;
  details : string
}.

(** The [flight_state] dictionary: one field per key. *)
Record FlightState : Type := {
  is_flying : bool;
  is_offboard : bool;
  current_pattern : option string;
  mission_count : Z;
  flight_time : Z;
  logs : list LogEntry;
  velocity_enabled : bool
}.

(** Its value when the module is loaded. *)
Definition flight_state : FlightState := {|
  is_flying := false;
  is_offboard := false;
  current_pattern := None;
  mission_count := 0;
  flight_time := 0;
  logs := [];
  velocity_enabled := false
|}.

Definition set_is_flying (b : bool) (s : FlightState) : FlightState :=
  {| is_flying := b; is_offboard := is_offboard s;
     current_pattern := current_pattern s; mission_count := mission_count s;
     flight_time := flight_time s; logs := logs s;
     velocity_enabled := velocity_enabled s |}.

Definition set_is_offboard (b : bool) (s : FlightState) : FlightState :=
  {| is_flying := is_flying s; is_offboard := b;
     current_pattern := current_pattern s; mission_count := mission_count s;
     flight_time := flight_time s; logs := logs s;
     velocity_enabled := velocity_enabled s |}.

Definition set_current_pattern (p : option string) (s : FlightState)
  : FlightState :=
  {| is_flying := is_flying s; is_offboard := is_offboard s;
     current_pattern := p; mission_count := mission_count s;
     flight_time := flight_time s; logs := logs s;
     velocity_enabled := velocity_enabled s |}.

Definition set_mission_count (n : Z) (s : FlightState) : FlightState :=
  {| is_flying := is_flying s; is_offboard := is_offboard s;
     current_pattern := current_pattern s; mission_count := n;
     flight_time := flight_time s; logs := logs s;
     velocity_enabled := velocity_enabled s |}.

Definition set_logs (l : list LogEntry) (s : FlightState) : FlightState :=
  {| is_flying := is_flying s; is_offboard := is_offboard s;
     current_pattern := current_pattern s; mission_count := mission_count s;
     flight_time := flight_time s; logs := l;
     velocity_enabled := velocity_enabled s |}.

Definition set_velocity_enabled (b : bool) (s : FlightState) : FlightState :=
  {| is_flying := is_flying s; is_offboard := is_offboard s;
     current_pattern := current_pattern s; mission_count := mission_count s;
     flight_time := flight_time s; logs := logs s;
     velocity_enabled := b |}.

(** What [add_log] does to the list: [insert(0, log_entry)], then [pop()] of
    the last element when the length exceeds 50. *)
Definition push_log (e : LogEntry) (l : list LogEntry) : list LogEntry :=
  let l' := e :: l in
  if (50 <? length l')%nat then removelast l' else l'.

(** [add_log(action, status, details)]; [now] is the clock reading. *)
Definition add_log (now action status details : string) (s : FlightState)
  : FlightState :=
  let log_entry := {| timestamp := now; action := action; status := status;
                      details := details |} in
  set_logs (push_log log_entry (logs s)) s.

(** A [jsonify({key: value})] answer with its HTTP status. *)
Record Response : Type := {
  http_status : nat;
  key : string;
  value : string
}.

Definition ok (k v : string) : Response :=
  {| http_status := 200; key := k; value := v |}.
Definition bad_request (v : string) : Response :=
  {| http_status := 400; key := "error"; value := v |}.
Definition server_error (v : string) : Response :=
  {| http_status := 500; key := "error"; value := v |}.

(** The keys of [pattern_map]. *)
Definition pattern_names : list string :=
  [ "square"; "triangle"; "circle"; "star";
    "infinity"; "heart"; "spiral"; "figure8" ]%string.

Definition known_shape (shape : string) : bool :=
  existsb (String.eqb shape) pattern_names.

(** A request body as the parsing lines of a handler see it: either they
    raise (no JSON object, a field of the wrong type, an unparsable number)
    with the text of the exception, or every [data.get] yields an absent or
    a well-typed field. *)
Inductive Body (A : Type) : Type :=
| Raises (msg : string)
| Parsed (data : A).

Arguments Raises {A} msg.
Arguments Parsed {A} data.

Section Handlers.
Context {F : Type} `{Num F}.

Record PatternData : Type := {
  shape_field : option string;
  size_field : option F;
  height_field : option F;
  speed_field : option F
}.

Record VelocityData : Type := {
  vx_field : option F;
  vy_field : option F;
  vz_field : option F;
  yaw_rate_field : option F
}.

(** [data.get(key, default)]. *)
Definition get {A : Type} (field : option A) (default : A) : A :=
  match field with Some v => v | None => default end.

(** The thread started by [pattern]: the closure [execute_pattern] with
    the variables it captured. *)
Record Worker : Type := {
  shape : string;
  size : F;
  height : F;
  delay : F
}.

(** What a handler call does: the new state, the answer, the link calls it
    submits through [run_async] (in order, as issued when none raises; an
    exception inside [run_async] is printed and dropped, so the handler
    goes on the same way), and the worker thread it starts. *)
Record Outcome : Type := {
  state : FlightState;
  response : Response;
  link : list (LinkCall F);
  worker : option Worker
}.

Definition finish (s : FlightState) (r : Response) (l : list (LinkCall F))
  : Outcome :=
  {| state := s; response := r; link := l; worker := None |}.

(** The guard [if flight_state["is_offboard"]: run_async(drone.offboard.stop());
    flight_state["is_offboard"] = False] of disarm, land, rtl, emergency. *)
Definition leave_offboard (s : FlightState)
  : FlightState * list (LinkCall F) :=
  if is_offboard s then (set_is_offboard false s, [OffboardStop])
  else (s, []).

Definition arm (now : string) (s : FlightState) : Outcome :=
  finish (add_log now "ARM" "success" "Drone armed" s)
         (ok "status" "armed") [ActionArm].

Definition disarm (now : string) (s : FlightState) : Outcome :=
  let '(s1, l1) := leave_offboard s in
  let s2 := set_is_flying false s1 in
  let s3 := set_velocity_enabled false s2 in
  let s4 := set_current_pattern None s3 in
  finish (add_log now "DISARM" "success" "Drone disarmed" s4)
         (ok "status" "disarmed") (l1 ++ [ActionDisarm]).

Definition takeoff (now : string) (s : FlightState) : Outcome :=
  let s1 := set_is_flying true s in
  let s2 := set_mission_count (mission_count s1 + 1) s1 in
  finish (add_log now "TAKEOFF" "success" "Taking off" s2)
         (ok "status" "taking off") [ActionArm; ActionTakeoff].

Definition land (now : string) (s : FlightState) : Outcome :=
  let '(s1, l1) := leave_offboard s in
  let s2 := set_is_flying false s1 in
  let s3 := set_current_pattern None s2 in
  let s4 := set_velocity_enabled false s3 in
  finish (add_log now "LAND" "success" "Landing initiated" s4)
         (ok "status" "landing") (l1 ++ [ActionLand]).

Definition rtl (now : string) (s : FlightState) : Outcome :=
  let '(s1, l1) := leave_offboard s in
  let s2 := set_current_pattern None s1 in
  let s3 := set_velocity_enabled false s2 in
  finish (add_log now "RTL" "success" "Returning to launch" s3)
         (ok "status" "returning to launch") (l1 ++ [ActionReturnToLaunch]).

Definition emergency (now : string) (s : FlightState) : Outcome :=
  let '(s1, l1) := leave_offboard s in
  let s2 := set_is_flying false s1 in
  let s3 := set_current_pattern None s2 in
  let s4 := set_velocity_enabled false s3 in
  finish (add_log now "EMERGENCY" "success" "Emergency stop activated" s4)
         (ok "status" "emergency stop") (l1 ++ [ActionKill]).

(** [pattern]: the running-pattern check comes first, then the body is
    parsed, then the shape is looked up in [pattern_map]. *)
Definition pattern (now : string) (body : Body PatternData)
                   (s : FlightState) : Outcome :=
  match current_pattern s with
  | Some _ => finish s (bad_request "Pattern already running") []
  | None =>
      match body with
      | Raises msg =>
          let s1 := set_current_pattern None s in
          finish (add_log now "PATTERN" "error" msg s1) (server_error msg) []
      | Parsed data =>
          let shape := lower (get (shape_field data) "square"%string) in
          let size := get (size_field data) (of_Z 5) in
          let height := (- fabs (get (height_field data) (of_Z 5)))%fl in
          let delay := get (speed_field data) (dec 1 2) in
          if negb (known_shape shape) then
            finish (add_log now "PATTERN" "error"
                            ("Unknown shape: " ++ shape) s)
                   (bad_request "unknown shape") []
          else
            let s1 := set_current_pattern (Some shape) s in
            let s2 := add_log now "PATTERN" "started"
                              (shape ++ " pattern initiated") s1 in
            {| state := s2;
               response := ok "status" (shape ++ " pattern started");
               link := [];
               worker := Some {| shape := shape; size := size;
                                 height := height; delay := delay |} |}
      end
  end.

(** The end of [execute_pattern]: [run_async] has returned (it never
    raises), the success entry is logged, and the [finally] block clears
    the pattern and the offboard flag. *)
Definition execute_pattern_done (now : string) (w : Worker)
                                (s : FlightState) : FlightState :=
  let s1 := add_log now "PATTERN" "success"
                    (shape w ++ " pattern completed") s in
  let s2 := set_current_pattern None s1 in
  set_is_offboard false s2.

Definition offboard_start (now : string) (s : FlightState) : Outcome :=
  if is_offboard s then finish s (ok "status" "offboard already active") []
  else
    let s1 := set_is_offboard true s in
    let s2 := set_velocity_enabled true s1 in
    let s3 := set_is_flying true s2 in
    finish (add_log now "OFFBOARD" "success" "Offboard mode started" s3)
           (ok "status" "offboard started")
           [SetVelocityBody (of_Z 0) (of_Z 0) (of_Z 0) (of_Z 0);
            OffboardStart].

Definition offboard_stop (now : string) (s : FlightState) : Outcome :=
  if negb (is_offboard s) then finish s (ok "status" "offboard not active") []
  else
    let s1 := set_is_offboard false s in
    let s2 := set_velocity_enabled false s1 in
    finish (add_log now "OFFBOARD" "success" "Offboard mode stopped" s2)
           (ok "status" "offboard stopped") [OffboardStop].

Definition velocity (body : Body VelocityData) (s : FlightState)
  : Outcome :=
  if negb (is_offboard s) || negb (velocity_enabled s) then
    finish s (bad_request "offboard mode not active") []
  else
    match body with
    | Raises msg => finish s (server_error msg) []
    | Parsed data =>
        let vx := get (vx_field data) (of_Z 0) in
        let vy := get (vy_field data) (of_Z 0) in
        let vz := get (vz_field data) (of_Z 0) in
        let yaw_rate := get (yaw_rate_field data) (of_Z 0) in
        finish s (ok "status" "velocity set")
               [SetVelocityBody vx vy vz yaw_rate]
    end.

Definition clear_logs (now : string) (s : FlightState) : Outcome :=
  let s1 := set_logs [] s in
  finish (add_log now "SYSTEM" "success" "Logs cleared" s1)
         (ok "status" "logs cleared") [].

(** The operations the web layer exposes. *)
Inductive Op : Type :=
| Arm
| Disarm
| Takeoff
| Land
| ReturnToLaunch
| EmergencyKill
| StartPattern (body : Body PatternData)
| StartOffboard
| StopOffboard
| SetVelocity (body : Body VelocityData)
| ClearLogs.

Definition handle (now : string) (op : Op) (s : FlightState) : Outcome :=
  match op with
  | Arm => arm now s
  | Disarm => disarm now s
  | Takeoff => takeoff now s
  | Land => land now s
  | ReturnToLaunch => rtl now s
  | EmergencyKill => emergency now s
  | StartPattern body => pattern now body s
  | StartOffboard => offboard_start now s
  | StopOffboard => offboard_stop now s
  | SetVelocity body => velocity body s
  | ClearLogs => clear_logs now s
  end.

(** A sequence of requests, each with the clock reading at its arrival,
    served one after the other. *)
Fixpoint serve (requests : list (string * Op)) (s : FlightState)
  : FlightState :=
  match requests with
  | [] => s
  | (now, op) :: rest => serve rest (state (handle now op s))
  end.

(** What can happen to the state: a request is served, or a pattern
    worker reaches the end of [execute_pattern]. *)
Inductive Event : Type :=
| Request (now : string) (op : Op)
| WorkerDone (now : string) (w : Worker).

Definition step (ev : Event) (s : FlightState) : FlightState :=
  match ev with
  | Request now op => state (handle now op s)
  | WorkerDone now w => execute_pattern_done now w s
  end.

Fixpoint run (events : list Event) (s : FlightState) : FlightState :=
  match events with
  | [] => s
  | ev :: rest => run rest (step ev s)
  end.
End Handlers.

Section Dispatch.
Context {F : Type} `{Num F} `{Trig F}.

(** The dictionary [pattern_map] of [pattern], as the list of its items:
    each value is the coroutine its lambda returns, a function of the
    fault that may strike it. *)
Definition pattern_map (size height delay : F)
  : list (string * (option nat -> list (LinkCall F) * bool)) :=
  [ ("square"%string,   Patterns.fly_square size height delay);
    ("triangle"%string, Patterns.fly_triangle size height delay);
    ("circle"%string,   Patterns.fly_circle size height 30 delay);
    ("star"%string,     Patterns.fly_star size height delay);
    ("infinity"%string, Patterns.fly_infinity size height 40 delay);
    ("heart"%string,    Patterns.fly_heart size height 50 delay);
    ("spiral"%string,   Patterns.fly_spiral size height 30 delay);
    ("figure8"%string,  Patterns.fly_figure8 size height 40 delay) ].

(** [d[k]] on a list of items. *)
Fixpoint item {A : Type} (k : string) (d : list (string * A)) : option A :=
  match d with
  | [] => None
  | (k', v) :: rest => if String.eqb k k' then Some v else item k rest
  end.

(** The link calls of [run_async(pattern_map[shape]())] in the worker
    thread ([None] would be a [KeyError]). *)
Definition execute_pattern (w : Worker) (fault : option nat)
  : option (list (LinkCall F)) :=
  match item (shape w) (pattern_map (size w) (height w) (delay w)) with
  | Some coroutine => Some (fst (coroutine fault))
  | None => None
  end.
End Dispatch.

Arguments PatternData F : clear implicits.
Arguments VelocityData F : clear implicits.
Arguments Worker F : clear implicits.
Arguments Outcome F : clear implicits.
Arguments Op F : clear implicits.
Arguments Event F : clear implicits.

End App.


(** ** The properties under study, as definitions *)
Module Props.
Import App.

(** The two state invariants of the data model. *)
Definition manual_implies_offboard (s : FlightState) : Prop :=
  velocity_enabled s = true -> is_offboard s = true.

Definition pattern_implies_offboard (s : FlightState) : Prop :=
  current_pattern s <> None -> is_offboard s = true.

Definition invariants (s : FlightState) : Prop :=
  manual_implies_offboard s /\ pattern_implies_offboard s.

(** A call has appended exactly one entry to the ring [before]. *)
Definition appends_one (before after : list LogEntry) : Prop :=
  exists e, after = push_log e before.



(** The bearing of the displacement from [p] to [q], by the tangent formula
    of the curve patterns: [degrees(atan2(dy, dx))]. *)
Definition bearing (p q : R * R) : R :=
  degrees (fatan2 (snd q - snd p)%R (fst q - fst p)%R).

(** Two headings in degrees denote the same direction. *)
Definition same_heading (a b : R) : Prop :=
  exists k : Z, a = (b + 360 * IZR k)%R.

(** Every waypoint of the list but the last carries the bearing toward the
    waypoint that follows it. *)
Fixpoint faces_next (points : list (R * R * R)) : Prop :=
  match points with
  | [] => True
  | (x, y, yaw) :: rest =>
      match rest with
      | [] => True
      | (x', y', _) :: _ =>
          same_heading yaw (bearing (x, y) (x', y')) /\ faces_next rest
      end
  end.







(** The altitude component of a position setpoint. *)
Definition down_of {F : Type} (c : LinkCall F) : option F :=
  match c with
  | SetPositionNed _ _ down _ => Some down
  | _ => None
  end.

(** Every position setpoint of [calls] has the altitude component [z]. *)
Definition all_down_at {F : Type} (z : F) (calls : list (LinkCall F)) : Prop :=
  Forall (fun c => forall d, down_of c = Some d -> d = z) calls.

End Props.


(** ** Sample requests and states, used to run the model *)
Module Samples.
Import App.

(** [{"shape": "square", "size": 4, "height": 3, "speed": 1.0}]. *)
Definition square_data {F : Type} `{Num F} : PatternData F :=
  {| shape_field := Some "square"%string;
     size_field := Some (of_Z 4);
     height_field := Some (of_Z 3);
     speed_field := Some (of_Z 1) |}.

(** [{"shape": "square", "size": 0}]. *)
Definition zero_size_data : PatternData Q :=
  {| shape_field := Some "square"%string;
     size_field := Some (inject_Z 0);
     height_field := None;
     speed_field := None |}.

(** [{"vx": 1}]. *)
Definition forward_data : VelocityData Q :=
  {| vx_field := Some (inject_Z 1);
     vy_field := None;
     vz_field := None;
     yaw_rate_field := None |}.

(** The state once a square pattern has been accepted at start-up. *)
Definition square_running : FlightState :=
  serve [("12:00:00"%string, StartPattern (Parsed (square_data (F := Q))))]
        flight_state.

(** The state once offboard mode has been started at start-up. *)
Definition offboard_ready : FlightState :=
  serve [("12:00:00"%string, StartOffboard (F := Q))] flight_state.

(** Offboard started, then a square accepted, then its worker ended. *)
Definition after_worker : FlightState :=
  run [ Request "12:00:00"%string (StartOffboard (F := Q));
        Request "12:00:01"%string (StartPattern (Parsed square_data));
        WorkerDone "12:00:31"%string
                   {| shape := "square"; size := inject_Z 4;
                      height := inject_Z (-3); delay := inject_Z 1 |} ]
      flight_state.

(** A [math] module whose functions answer [nan] to everything.  What is
    proved for every C library is run on this one where the result, such as
    the number of calls of a run, does not depend on the library. *)
Definition blank_libm : Trig spec_float :=
  B64_Trig (fun _ => S754_nan) (fun _ => S754_nan) (fun _ => S754_nan)
           (fun _ _ => S754_nan).

(** A request body whose height is the float [nan], as [float("nan")]
    gives it. *)
Definition nan_height_data : PatternData spec_float :=
  {| shape_field := Some "square"%string; size_field := None;
     height_field := Some S754_nan; speed_field := None |}.

Definition sample_entry : LogEntry :=
  {| timestamp := "12:00:00"; action := "ARM"; status := "success";
     details := "Drone armed" |}.

End Samples.


(** ** Observations on events, link calls and samples *)
Module Observe.
Import App.

(** The kinds of link call. *)
Definition is_setpoint {F : Type} (c : LinkCall F) : bool :=
  match c with SetPositionNed _ _ _ _ => true | _ => false end.

Definition is_start {F : Type} (c : LinkCall F) : bool :=
  match c with OffboardStart => true | _ => false end.

Definition is_stop {F : Type} (c : LinkCall F) : bool :=
  match c with OffboardStop => true | _ => false end.

(** A list of position setpoints and nothing else. *)
Definition setpoints_only {F : Type} (calls : list (LinkCall F)) : Prop :=
  Forall (fun c => is_setpoint c = true) calls.

(** How many times a run asks the vehicle to leave offboard mode. *)
Definition teardowns {F : Type} (calls : list (LinkCall F)) : nat :=
  length (filter is_stop calls).

(** The takeoff requests of a sequence of events. *)
Definition is_takeoff {F : Type} (ev : Event F) : bool :=
  match ev with Request _ Takeoff => true | _ => false end.

Definition takeoffs {F : Type} (events : list (Event F)) : Z :=
  Z.of_nat (length (filter is_takeoff events)).

(** The four operations that take the vehicle out of the air or home. *)
Definition stop_style {F : Type} (op : Op F) : bool :=
  match op with
  | Disarm | Land | ReturnToLaunch | EmergencyKill => true
  | _ => false
  end.

(** The [drone.action] call of a stop-style operation. *)
Definition primary_action {F : Type} (op : Op F) : list (LinkCall F) :=
  match op with
  | Disarm => [ActionDisarm]
  | Land => [ActionLand]
  | ReturnToLaunch => [ActionReturnToLaunch]
  | EmergencyKill => [ActionKill]
  | _ => []
  end.

(** Two states agree on every key but ["logs"]. *)
Definition same_flags (s s' : FlightState) : Prop :=
  is_flying s' = is_flying s
  /\ is_offboard s' = is_offboard s
  /\ current_pattern s' = current_pattern s
  /\ mission_count s' = mission_count s
  /\ flight_time s' = flight_time s
  /\ velocity_enabled s' = velocity_enabled s.

(** A pattern body with its ["shape"] key set to [sh]. *)
Definition with_shape {F : Type} (sh : string) (data : PatternData F)
  : PatternData F :=
  {| shape_field := Some sh;
     size_field := size_field data;
     height_field := height_field data;
     speed_field := speed_field data |}.

(** A sequence of [add_log] calls, one per entry, oldest first. *)
Definition log_each (entries : list LogEntry) (s : FlightState)
  : FlightState :=
  fold_left
    (fun st e => add_log (timestamp e) (action e) (status e) (details e) st)
    entries s.

(** The position of a sample [(x, y, yaw)]. *)
Definition sx {F : Type} (sample : F * F * F) : F := fst (fst sample).
Definition sy {F : Type} (sample : F * F * F) : F := snd (fst sample).



(** A curve run without a jump: priming, a transit of 3 s to the position
    of the first sample, the drawing loop over the samples, and the final
    hold at the position of the last sample. *)
Definition seamless (height delay yaw_first yaw_last : R)
                    (samples : list (R * R * R)) : list (LinkCall R) :=
  let first := hd (0, 0, 0)%R samples in
  let final := last samples (0, 0, 0)%R in
  Patterns.prepare_offboard height
  ++ Patterns.fly_to_position (sx first) (sy first) height yaw_first 3%R
  ++ Patterns.draw height delay samples
  ++ Patterns.hold_final (sx final) (sy final) height yaw_last.

End Observe.


(** * Verified properties *)

Unset Implicit Arguments.

Import App Props.

(** ** The log ring *)

Lemma push_log_cons (e : LogEntry) (l : list LogEntry) :
  (length l < 50)%nat -> push_log e l = e :: l.
Proof.
  intros Hlen. unfold push_log.
  destruct (Nat.ltb_spec 50 (length (e :: l))) as [Hgt | _]; [ | reflexivity ].
  simpl in Hgt. lia.
Qed.

Lemma push_log_evicts (e : LogEntry) (l : list LogEntry) :
  (50 <= length l)%nat -> push_log e l = e :: removelast l.
Proof.
  intros Hlen. unfold push_log.
  destruct (Nat.ltb_spec 50 (length (e :: l))) as [_ | Hle].
  - destruct l as [ | e' l' ]; [ simpl in Hlen; lia | reflexivity ].
  - simpl in Hle. lia.
Qed.

Lemma removelast_length {A : Type} (l : list A) :
  length (removelast l) = Nat.pred (length l).
Proof.
  rewrite removelast_firstn_len, length_firstn. lia.
Qed.

Lemma push_log_bounded (e : LogEntry) (l : list LogEntry) :
  (length l <= 50)%nat -> (length (push_log e l) <= 50)%nat.
Proof.
  intros Hlen.
  destruct (Nat.lt_ge_cases (length l) 50) as [Hlt | Hge].
  - rewrite push_log_cons by assumption. simpl. lia.
  - rewrite push_log_evicts by assumption. simpl.
    rewrite removelast_length. lia.
Qed.

Lemma push_log_newest (e : LogEntry) (l : list LogEntry) :
  nth_error (push_log e l) 0 = Some e.
Proof.
  destruct (Nat.lt_ge_cases (length l) 50) as [Hlt | Hge].
  - rewrite push_log_cons by assumption. reflexivity.
  - rewrite push_log_evicts by assumption. reflexivity.
Qed.

Lemma push_log_firstn (e : LogEntry) (l : list LogEntry) :
  (length l <= 50)%nat -> push_log e l = firstn 50 (e :: l).
Proof.
  intros Hlen.
  destruct (Nat.lt_ge_cases (length l) 50) as [Hlt | Hge].
  - rewrite push_log_cons by assumption.
    symmetry. apply firstn_all2. simpl. lia.
  - rewrite push_log_evicts by assumption.
    rewrite removelast_firstn_len.
    replace (Nat.pred (length l)) with 49%nat by lia. reflexivity.
Qed.

Section StateMachine.
Context {F : Type} `{Num F}.

(** How one event changes the ring: it is left alone, or one entry is pushed
    on it, or on the emptied ring. *)
Lemma step_logs (ev : Event F) (s : FlightState) :
  logs (step ev s) = logs s
  \/ (exists e, logs (step ev s) = push_log e (logs s))
  \/ (exists e, logs (step ev s) = push_log e []).
Proof.
  destruct ev as [now op | now w].
  - destruct op as [ | | | | | | body | | | body | ]; simpl.
    + right; left; eexists; reflexivity.
    + right; left. unfold disarm, leave_offboard.
      destruct (is_offboard s); eexists; reflexivity.
    + right; left; eexists; reflexivity.
    + right; left. unfold land, leave_offboard.
      destruct (is_offboard s); eexists; reflexivity.
    + right; left. unfold rtl, leave_offboard.
      destruct (is_offboard s); eexists; reflexivity.
    + right; left. unfold emergency, leave_offboard.
      destruct (is_offboard s); eexists; reflexivity.
    + unfold pattern. destruct (current_pattern s); [ left; reflexivity | ].
      destruct body as [msg | data].
      * right; left; eexists; reflexivity.
      * destruct (negb _); right; left; eexists; reflexivity.
    + unfold offboard_start.
      destruct (is_offboard s); [ left; reflexivity | ].
      right; left; eexists; reflexivity.
    + unfold offboard_stop.
      destruct (negb (is_offboard s)); [ left; reflexivity | ].
      right; left; eexists; reflexivity.
    + left. unfold velocity.
      destruct (negb (is_offboard s) || negb (velocity_enabled s));
        [ reflexivity | destruct body; reflexivity ].
    + right; right; eexists; reflexivity.
  - right; left; eexists; reflexivity.
Qed.

Lemma run_logs_bounded (events : list (Event F)) (s : FlightState) :
  (length (logs s) <= 50)%nat -> (length (logs (run events s)) <= 50)%nat.
Proof.
  revert s. induction events as [ | ev events IH ]; intros s Hs; simpl.
  - exact Hs.
  - apply IH.
    destruct (step_logs ev s) as [Heq | [[e Heq] | [e Heq]]]; rewrite Heq.
    + exact Hs.
    + apply push_log_bounded, Hs.
    + apply push_log_bounded. simpl. lia.
Qed.

(** What [add_log] does to the ring of any state: the new entry is at index
    0; below capacity the older entries follow it unchanged; on a full ring
    the last entry, the oldest one, is dropped and the others keep their
    order. *)
Lemma add_log_ring (now a st d : string) (s : FlightState) :
  let e := {| timestamp := now; action := a; status := st; details := d |} in
  let after := logs (add_log now a st d s) in
  nth_error after 0 = Some e
  /\ ((length (logs s) < 50)%nat -> after = e :: logs s)
  /\ (length (logs s) = 50%nat ->
      after = e :: removelast (logs s) /\ length after = 50%nat).
Proof.
  unfold add_log, set_logs. cbn [logs]. split; [ | split ].
  - apply push_log_newest.
  - intros Hlt. apply push_log_cons, Hlt.
  - intros Hlen. rewrite push_log_evicts by lia. split; [ reflexivity | ].
    simpl. rewrite removelast_length, Hlen. reflexivity.
Qed.

(** Every event leaves the ring alone or is one [add_log] on it, or on the
    ring emptied by [clear_logs]. *)
Lemma step_add_log (ev : Event F) (s : FlightState) :
  logs (step ev s) = logs s
  \/ exists now a st d : string,
       logs (step ev s) = logs (add_log now a st d s)
       \/ logs (step ev s) = logs (add_log now a st d (set_logs [] s)).
Proof.
  destruct ev as [now op | now w].
  - destruct op as [ | | | | | | body | | | body | ]; simpl.
    + right. do 4 eexists. left. reflexivity.
    + right. unfold disarm, leave_offboard.
      destruct (is_offboard s); do 4 eexists; left; reflexivity.
    + right. do 4 eexists. left. reflexivity.
    + right. unfold land, leave_offboard.
      destruct (is_offboard s); do 4 eexists; left; reflexivity.
    + right. unfold rtl, leave_offboard.
      destruct (is_offboard s); do 4 eexists; left; reflexivity.
    + right. unfold emergency, leave_offboard.
      destruct (is_offboard s); do 4 eexists; left; reflexivity.
    + unfold pattern. destruct (current_pattern s); [ left; reflexivity | ].
      destruct body as [msg | data].
      * right. do 4 eexists. left. reflexivity.
      * destruct (negb _); right; do 4 eexists; left; reflexivity.
    + unfold offboard_start.
      destruct (is_offboard s); [ left; reflexivity | ].
      right. do 4 eexists. left. reflexivity.
    + unfold offboard_stop.
      destruct (negb (is_offboard s)); [ left; reflexivity | ].
      right. do 4 eexists. left. reflexivity.
    + left. unfold velocity.
      destruct (negb (is_offboard s) || negb (velocity_enabled s));
        [ reflexivity | destruct body; reflexivity ].
    + right. do 4 eexists. right. reflexivity.
  - right. do 4 eexists. left. reflexivity.
Qed.

(** C9. The log ring holds at most 50 entries after any sequence of events
    (requests and worker completions) from the initial state.  [add_log] on
    any state puts the new entry at index 0; below capacity the older
    entries follow it unchanged, and on a full ring the last entry, the
    oldest one, is dropped while the others keep their order.  Every event
    leaves the ring alone or changes it as one [add_log] does, on the ring
    or on the ring emptied by [clear_logs]; and after any sequence of events
    an arm request puts its entry at index 0, in front of the 49 most recent
    older ones. *)
Theorem log_ring_bounded_newest_first :
  (forall events : list (Event F),
      (length (logs (run events flight_state)) <= 50)%nat)
  /\ (forall (now a st d : string) (s : FlightState),
         let e := {| timestamp := now; action := a; status := st;
                     details := d |} in
         let after := logs (add_log now a st d s) in
         nth_error after 0 = Some e
         /\ ((length (logs s) < 50)%nat -> after = e :: logs s)
         /\ (length (logs s) = 50%nat ->
             after = e :: removelast (logs s) /\ length after = 50%nat))
  /\ (forall (ev : Event F) (s : FlightState),
         logs (step ev s) = logs s
         \/ exists now a st d : string,
              logs (step ev s) = logs (add_log now a st d s)
              \/ logs (step ev s)
                 = logs (add_log now a st d (set_logs [] s)))
  /\ (forall (events : list (Event F)) (now : string),
         let s := run events flight_state in
         logs (step (Request now Arm) s)
         = {| timestamp := now; action := "ARM"; status := "success";
              details := "Drone armed" |} :: firstn 49 (logs s)).
Proof.
  split; [ | split; [ | split ] ].
  - intros events. apply run_logs_bounded. simpl. lia.
  - intros now a st d s. apply add_log_ring.
  - apply step_add_log.
  - intros events now s. subst s. cbn [step handle state arm finish].
    unfold add_log, set_logs. cbn [logs].
    rewrite push_log_firstn; [ reflexivity | ].
    apply run_logs_bounded. simpl. lia.
Qed.

(** ** Logging of transition attempts *)


(** The worker thread logs on its own when it ends: an accepted pattern
    accounts for two entries, one at the request and one at completion. *)
Lemma worker_done_logs (now : string) (w : Worker F) (s : FlightState) :
  appends_one (logs s) (logs (execute_pattern_done now w s)).
Proof. eexists; reflexivity. Qed.

(** ** Mutual exclusion of patterns *)

(** C3. A startPattern request received while a pattern is running is
    answered 400 "Pattern already running", whatever its body; the state,
    its [current_pattern] included, is unchanged, no link call is made and
    no worker is started. *)
Theorem pattern_rejected_while_running
  (now : string) (body : Body (PatternData F)) (s : FlightState)
  (running : string) :
  current_pattern s = Some running ->
  handle now (StartPattern body) s
  = {| state := s;
       response := {| http_status := 400; key := "error";
                      value := "Pattern already running" |};
       link := [];
       worker := None |}.
Proof.
  intros Hrun. simpl. unfold pattern. rewrite Hrun. reflexivity.
Qed.

(** ** Validation of pattern requests *)


(** ** State invariants *)

Lemma handle_manual_implies_offboard
  (now : string) (op : Op F) (s : FlightState) :
  manual_implies_offboard s ->
  manual_implies_offboard (state (handle now op s)).
Proof.
  unfold manual_implies_offboard. intros Hinv.
  destruct op as [ | | | | | | body | | | body | ]; simpl.
  - exact Hinv.
  - unfold disarm, leave_offboard. destruct (is_offboard s); simpl;
      intros Hv; discriminate Hv.
  - exact Hinv.
  - unfold land, leave_offboard. destruct (is_offboard s); simpl;
      intros Hv; discriminate Hv.
  - unfold rtl, leave_offboard. destruct (is_offboard s); simpl;
      intros Hv; discriminate Hv.
  - unfold emergency, leave_offboard. destruct (is_offboard s); simpl;
      intros Hv; discriminate Hv.
  - unfold pattern. destruct (current_pattern s); [ exact Hinv | ].
    destruct body as [msg | data]; [ exact Hinv | ].
    destruct (negb _); exact Hinv.
  - unfold offboard_start. destruct (is_offboard s) eqn:E; simpl;
      [ rewrite E; exact Hinv | reflexivity ].
  - unfold offboard_stop. destruct (is_offboard s) eqn:E; simpl;
      [ intros Hv; discriminate Hv | rewrite E; exact Hinv ].
  - unfold velocity.
    destruct (negb (is_offboard s) || negb (velocity_enabled s));
      [ exact Hinv | destruct body; exact Hinv ].
  - exact Hinv.
Qed.

(** C1, as the code has it.  After any sequence of the exposed operations
    served from the initial state, manual velocity enabled implies offboard
    active.  (The second invariant is not part of the statement: [pattern]
    records the running pattern and leaves [is_offboard] as it is.) *)
Theorem served_manual_implies_offboard (requests : list (string * Op F)) :
  manual_implies_offboard (serve requests flight_state).
Proof.
  assert (Hgen : forall s, manual_implies_offboard s ->
                           manual_implies_offboard (serve requests s)).
  { induction requests as [ | [now op] rest IH ]; intros s Hs; simpl.
    - exact Hs.
    - apply IH, handle_manual_implies_offboard, Hs. }
  apply Hgen. intros Hv. discriminate Hv.
Qed.

(** The end of a worker thread is no exposed operation, and it is the one
    place that clears [is_offboard] and keeps [velocity_enabled]. *)
Lemma worker_done_keeps_velocity_enabled
  (now : string) (w : Worker F) (s : FlightState) :
  is_offboard (execute_pattern_done now w s) = false
  /\ velocity_enabled (execute_pattern_done now w s) = velocity_enabled s
  /\ current_pattern (execute_pattern_done now w s) = None.
Proof. repeat split. Qed.

(** Over requests and worker completions alike, it is the converse
    implication that is kept: offboard active implies velocity enabled. *)
Lemma run_offboard_implies_manual (events : list (Event F)) :
  is_offboard (run events flight_state) = true ->
  velocity_enabled (run events flight_state) = true.
Proof.
  assert (Hgen : forall s,
             (is_offboard s = true -> velocity_enabled s = true) ->
             is_offboard (run events s) = true ->
             velocity_enabled (run events s) = true).
  { induction events as [ | ev rest IH ]; intros s Hs; simpl; [ exact Hs | ].
    apply IH. destruct ev as [now op | now w].
    - destruct op as [ | | | | | | body | | | body | ]; simpl; try exact Hs.
      + unfold disarm, leave_offboard. destruct (is_offboard s) eqn:E; simpl;
          rewrite ?E; intros Hv; discriminate Hv.
      + unfold land, leave_offboard. destruct (is_offboard s) eqn:E; simpl;
          rewrite ?E; intros Hv; discriminate Hv.
      + unfold rtl, leave_offboard. destruct (is_offboard s) eqn:E; simpl;
          rewrite ?E; intros Hv; discriminate Hv.
      + unfold emergency, leave_offboard. destruct (is_offboard s) eqn:E; simpl;
          rewrite ?E; intros Hv; discriminate Hv.
      + unfold pattern. destruct (current_pattern s); [ exact Hs | ].
        destruct body as [msg | data]; [ exact Hs | ].
        destruct (negb _); exact Hs.
      + unfold offboard_start. destruct (is_offboard s) eqn:E; simpl;
          [ rewrite E; exact Hs | reflexivity ].
      + unfold offboard_stop. destruct (is_offboard s) eqn:E; simpl;
          [ intros Hv; discriminate Hv | rewrite E; exact Hs ].
      + unfold velocity.
        destruct (negb (is_offboard s) || negb (velocity_enabled s));
          [ exact Hs | destruct body; exact Hs ].
    - simpl. intros Hv. discriminate Hv. }
  apply Hgen. intros Hv. discriminate Hv.
Qed.

End StateMachine.

(** ** The state machine on concrete requests *)

(** C1: the claimed invariants fail after a single accepted startPattern
    from the initial state: the pattern is set and offboard is not. *)
Lemma pattern_breaks_invariants :
  current_pattern Samples.square_running = Some "square"%string
  /\ is_offboard Samples.square_running = false
  /\ ~ invariants Samples.square_running.
Proof.
  split; [ reflexivity | split; [ reflexivity | ] ].
  intros [_ Hpat]. unfold pattern_implies_offboard in Hpat.
  assert (Hoff : is_offboard Samples.square_running = true)
    by (apply Hpat; discriminate).
  discriminate Hoff.
Qed.

Lemma served_manual_implies_offboard_witness :
  is_offboard Samples.offboard_ready = true.
Proof.
  apply (served_manual_implies_offboard (F := Q)
           [("12:00:00"%string, StartOffboard)]).
  reflexivity.
Defined.

(** Once the worker of a pattern started under manual offboard control has
    ended, velocity is still enabled and offboard is not active. *)
Lemma worker_done_breaks_manual_implies_offboard :
  velocity_enabled Samples.after_worker = true
  /\ is_offboard Samples.after_worker = false
  /\ ~ manual_implies_offboard Samples.after_worker.
Proof.
  split; [ reflexivity | split; [ reflexivity | ] ].
  intros Hinv. discriminate (Hinv eq_refl).
Qed.


Lemma pattern_rejected_while_running_witness :
  handle (F := Q) "12:00:01" (StartPattern (Parsed Samples.square_data))
         Samples.square_running
  = {| state := Samples.square_running;
       response := {| http_status := 400; key := "error";
                      value := "Pattern already running" |};
       link := [];
       worker := None |}.
Proof.
  apply (pattern_rejected_while_running (F := Q) "12:00:01"
           (Parsed Samples.square_data) Samples.square_running
           "square"%string).
  reflexivity.
Defined.



Lemma log_ring_bounded_newest_first_witness :
  let s := Observe.log_each (repeat Samples.sample_entry 50) flight_state in
  let e := {| timestamp := "12:00:01"; action := "LAND"; status := "success";
              details := "Landing initiated" |} in
  let after := logs (add_log "12:00:01" "LAND" "success" "Landing initiated"
                             s) in
  after = e :: removelast (logs s) /\ length after = 50%nat.
Proof.
  exact (proj2 (proj2 (proj1 (proj2 (log_ring_bounded_newest_first (F := Q)))
                         "12:00:01"%string "LAND"%string "success"%string
                         "Landing initiated"%string
                         (Observe.log_each (repeat Samples.sample_entry 50)
                                           flight_state)))
               eq_refl).
Defined.

(** ** The trajectory generators *)

Section Traces.
Context {F : Type} `{Num F}.

Lemma send_sample_repeat (height delay x y yaw : F) :
  Patterns.send_sample height delay (x, y, yaw)
  = repeat (SetPositionNed x y height yaw)
           (Z.to_nat (Z.max 3 (ftrunc (delay * of_Z 10)%fl))).
Proof. reflexivity. Qed.

Lemma draw_length (height delay : F) (samples : list (F * F * F)) :
  length (Patterns.draw height delay samples)
  = (length samples * Z.to_nat (Patterns.repeat_count delay))%nat.
Proof.
  unfold Patterns.draw. induction samples as [ | [[x y] yaw] rest IH ].
  - reflexivity.
  - simpl flat_map. rewrite length_app, IH. unfold Patterns.send_sample.
    rewrite repeat_length. simpl. reflexivity.
Qed.

Lemma range_length (n : Z) : length (range n) = Z.to_nat n.
Proof. unfold range. rewrite length_map, length_seq. reflexivity. Qed.

(** *** Altitude of the setpoints *)

Lemma all_down_at_app (z : F) (l1 l2 : list (LinkCall F)) :
  all_down_at z l1 -> all_down_at z l2 -> all_down_at z (l1 ++ l2).
Proof. intros H1 H2. apply Forall_app. split; assumption. Qed.

Lemma all_down_at_repeat (x y z yaw : F) (n : nat) :
  all_down_at z (repeat (SetPositionNed x y z yaw) n).
Proof.
  induction n as [ | n IH ]; simpl.
  - constructor.
  - constructor; [ | exact IH ].
    intros d Hd. simpl in Hd. injection Hd as Hd. symmetry. exact Hd.
Qed.

Lemma all_down_at_firstn (z : F) (n : nat) (l : list (LinkCall F)) :
  all_down_at z l -> all_down_at z (firstn n l).
Proof.
  revert l. induction n as [ | n IH ]; intros l Hl; simpl.
  - constructor.
  - destruct l as [ | c l ]; [ constructor | ].
    inversion Hl; subst. constructor; [ assumption | apply IH; assumption ].
Qed.

Lemma all_down_at_stop (z : F) :
  all_down_at z (Patterns.stop_offboard (F := F)).
Proof. repeat constructor. intros d Hd. discriminate Hd. Qed.

Lemma all_down_at_prepare (z : F) :
  all_down_at z (Patterns.prepare_offboard z).
Proof.
  unfold Patterns.prepare_offboard. apply all_down_at_app.
  - constructor.
    + intros d Hd. simpl in Hd. injection Hd as Hd. symmetry. exact Hd.
    + constructor; [ intros d Hd; discriminate Hd | constructor ].
  - apply all_down_at_repeat.
Qed.

Lemma all_down_at_fly_to_position (x y z yaw duration : F) :
  all_down_at z (Patterns.fly_to_position x y z yaw duration).
Proof.
  unfold Patterns.fly_to_position.
  apply all_down_at_app; apply all_down_at_repeat.
Qed.

Lemma all_down_at_fly_points (z duration : F) (points : list (F * F * F)) :
  all_down_at z (Patterns.fly_points z duration points).
Proof.
  unfold Patterns.fly_points.
  induction points as [ | [[x y] yaw] rest IH ]; simpl.
  - constructor.
  - apply all_down_at_app; [ apply all_down_at_fly_to_position | exact IH ].
Qed.

Lemma all_down_at_draw (z delay : F) (samples : list (F * F * F)) :
  all_down_at z (Patterns.draw z delay samples).
Proof.
  unfold Patterns.draw.
  induction samples as [ | [[x y] yaw] rest IH ]; simpl.
  - constructor.
  - apply all_down_at_app; [ apply all_down_at_repeat | exact IH ].
Qed.

Lemma all_down_at_guarded
  (z : F) (body : list (LinkCall F)) (fault : option nat) :
  all_down_at z body -> all_down_at z (fst (Patterns.guarded body fault)).
Proof.
  intros Hbody. unfold Patterns.guarded.
  destruct fault as [k | ]; [ destruct (k <? length body)%nat | ];
    unfold fst; apply all_down_at_app;
    first [ apply all_down_at_stop
          | apply all_down_at_firstn; exact Hbody
          | exact Hbody ].
Qed.

End Traces.

Ltac solve_all_down :=
  repeat first
    [ apply all_down_at_prepare
    | apply all_down_at_fly_points
    | apply all_down_at_fly_to_position
    | apply all_down_at_draw
    | apply all_down_at_repeat
    | apply all_down_at_app ].

Section CurveTraces.
Context {F : Type} `{Num F} `{Trig F}.

Lemma pattern_map_keys (size height delay : F) :
  map fst (pattern_map size height delay) = pattern_names.
Proof. reflexivity. Qed.

Lemma known_shape_cases (shape : string) :
  known_shape shape = true ->
  In shape pattern_names.
Proof.
  unfold known_shape. intros Hk.
  apply existsb_exists in Hk. destruct Hk as [name [Hin Heq]].
  apply String.eqb_eq in Heq. subst name. exact Hin.
Qed.

(** Every position setpoint a worker sends, with or without a fault, is at
    the altitude the worker was started with; and a worker whose shape is a
    key of [pattern_map] does have a coroutine to run. *)
Lemma execute_pattern_all_down (w : Worker F) (fault : option nat) :
  known_shape (shape w) = true ->
  exists calls,
    execute_pattern w fault = Some calls /\ all_down_at (height w) calls.
Proof.
  intros Hk. apply known_shape_cases in Hk.
  unfold execute_pattern.
  destruct w as [sh sz h d]. unfold shape, size, height, delay.
  unfold pattern_names in Hk. cbn [shape In] in Hk.
  repeat (destruct Hk as [Hk | Hk]; [ subst sh | ]); try contradiction.
  - exists (fst (Patterns.fly_square sz h d fault)).
    split; [ reflexivity | ]. apply all_down_at_guarded.
    unfold Patterns.fly_square_body. solve_all_down.
  - exists (fst (Patterns.fly_triangle sz h d fault)).
    split; [ reflexivity | ]. apply all_down_at_guarded.
    unfold Patterns.fly_triangle_body. solve_all_down.
  - exists (fst (Patterns.fly_circle sz h 30 d fault)).
    split; [ reflexivity | ]. apply all_down_at_guarded.
    unfold Patterns.fly_circle_body, Patterns.hold_final. solve_all_down.
  - exists (fst (Patterns.fly_star sz h d fault)).
    split; [ reflexivity | ]. apply all_down_at_guarded.
    unfold Patterns.fly_star_body. solve_all_down.
  - exists (fst (Patterns.fly_infinity sz h 40 d fault)).
    split; [ reflexivity | ]. apply all_down_at_guarded.
    unfold Patterns.fly_infinity_body, Patterns.hold_final. solve_all_down.
  - exists (fst (Patterns.fly_heart sz h 50 d fault)).
    split; [ reflexivity | ]. apply all_down_at_guarded.
    unfold Patterns.fly_heart_body, Patterns.hold_final.
    destruct (Patterns.heart_point sz (of_Z 0)). solve_all_down.
  - exists (fst (Patterns.fly_spiral sz h 30 d fault)).
    split; [ reflexivity | ]. apply all_down_at_guarded.
    unfold Patterns.fly_spiral_body, Patterns.hold_final. solve_all_down.
  - exists (fst (Patterns.fly_figure8 sz h 40 d fault)).
    split; [ reflexivity | ]. apply all_down_at_guarded.
    unfold Patterns.fly_figure8_body, Patterns.hold_final.
    destruct (Patterns.figure8_point _ (of_Z 0)). solve_all_down.
Qed.

(** An accepted request starts a worker with the height [-abs(h)], and
    every position setpoint of the worker's run carries that height. *)
Lemma pattern_worker_altitude
  (now : string) (data : PatternData F) (s : FlightState)
  (fault : option nat) :
  current_pattern s = None ->
  known_shape (lower (get (shape_field data) "square"%string)) = true ->
  let out := handle now (StartPattern (Parsed data)) s in
  http_status (response out) = 200%nat
  /\ exists (w : Worker F) (calls : list (LinkCall F)),
       worker out = Some w
       /\ height w = (- fabs (get (height_field data) (of_Z 5)))%fl
       /\ execute_pattern w fault = Some calls
       /\ all_down_at (height w) calls.
Proof.
  intros Hidle Hknown out. subst out.
  cbn [handle]. unfold pattern. rewrite Hidle, Hknown.
  cbn [negb response http_status ok worker]. split; [ reflexivity | ].
  match goal with |- exists w calls, Some ?w0 = Some w /\ _ =>
    set (w1 := w0) end.
  destruct (execute_pattern_all_down w1 fault Hknown) as [calls [Hrun Hdown]].
  exists w1, calls. repeat split; assumption.
Qed.



End CurveTraces.


(** *** Altitude *)

(** C10, as the code has it.  Whatever the arithmetic and the [math]
    functions are, an accepted startPattern request (no pattern running, a
    shape of [pattern_map]) is answered 200 and starts a worker with the
    height [-abs(h)], [h] being the height of the request (5 when absent),
    of either sign; the worker's coroutine exists, and every position
    setpoint it sends, whether it runs to its end or is cut short by a
    fault, has that altitude component.  On binary64 floats [-abs(h) <= 0]
    holds for every [h] that is a number, the zeros and the infinities
    included; for [h = nan] the height is [nan], and [nan <= 0] is false.
    On the reals [-abs(h) <= 0] always. *)
Theorem pattern_altitude_minus_abs :
  (forall (F : Type) (NF : Num F) (TF : Trig F) (now : string)
          (data : PatternData F) (s : FlightState) (fault : option nat),
      current_pattern s = None ->
      known_shape (lower (get (shape_field data) "square"%string)) = true ->
      let out := handle now (StartPattern (Parsed data)) s in
      http_status (response out) = 200%nat
      /\ exists (w : Worker F) (calls : list (LinkCall F)),
           worker out = Some w
           /\ height w = (- fabs (get (height_field data) (of_Z 5)))%fl
           /\ execute_pattern w fault = Some calls
           /\ Forall (fun c => forall d, down_of c = Some d -> d = height w)
                     calls)
  /\ (forall h : spec_float,
         h <> S754_nan -> b64_le (- fabs h)%fl (of_Z 0) = true)
  /\ (- fabs S754_nan)%fl = S754_nan
  /\ b64_le S754_nan (of_Z 0) = false
  /\ (forall h : R, (- fabs h)%fl <= 0)%R.
Proof.
  split; [ | split; [ | split; [ | split ] ] ].
  - intros F NF TF now data s fault Hidle Hknown.
    exact (pattern_worker_altitude now data s fault Hidle Hknown).
  - intros [sg | sg | | sg m e] Hnum;
      [ destruct sg; reflexivity | destruct sg; reflexivity
      | contradiction Hnum; reflexivity | destruct sg; reflexivity ].
  - reflexivity.
  - reflexivity.
  - intros h. cbn [fopp fabs R_Num]. pose proof (Rabs_pos h). lra.
Qed.

(** ** The generators over the reals *)

Section RealNumbers.
Local Open Scope R_scope.

Lemma Rtrunc_IZR (z : Z) : Rtrunc (IZR z) = z.
Proof.
  unfold Rtrunc. destruct (Rle_dec 0 (IZR z)) as [Hpos | Hneg].
  - symmetry. apply Int_part_spec. lra.
  - rewrite <- opp_IZR.
    rewrite <- (Int_part_spec (IZR (- z)) (- z)) by lra. lia.
Qed.


Lemma flight_time_Rmax (delay : R) :
  Patterns.flight_time delay = Rmax 3 (delay * 3).
Proof.
  unfold Patterns.flight_time, fmax. simpl. unfold Rgtb, Rmax.
  destruct (Rlt_dec 3 (delay * 3)); destruct (Rle_dec 3 (delay * 3)); lra.
Qed.

Lemma fly_to_position_3 (x y z yaw : R) :
  Patterns.fly_to_position x y z yaw 3 = repeat (SetPositionNed x y z yaw) 50.
Proof.
  unfold Patterns.fly_to_position. simpl ftrunc.
  replace (3 * 10) with (IZR 30) by lra.
  rewrite Rtrunc_IZR, <- repeat_app. reflexivity.
Qed.

(** C4. A startPattern request for a square of size 4 at height 3 with
    speed factor 1.0, received while no pattern runs, starts a worker whose
    coroutine primes offboard at altitude -3, flies to exactly five
    waypoints, (0,0), (4,0), (4,4), (0,4), (0,0) with headings 0, 90, 180,
    270, 0, each with hold duration 3, and stops offboard.  A hold duration
    of 3 is 50 transmissions (30 and the 20 of the closing loop).  For any
    size, height and speed factor the five waypoints of the square are
    flown in that order with hold duration [max(3, speedFactor * 3)], which
    is at least 3. *)
Theorem square_scenario (now : string) (s : FlightState) :
  current_pattern s = None ->
  let data := {| shape_field := Some "square"%string;
                 size_field := Some 4;
                 height_field := Some 3;
                 speed_field := Some 1 |} in
  let w := {| shape := "square"; size := 4; height := -3; delay := 1 |} in
    worker (handle now (StartPattern (Parsed data)) s) = Some w
    /\ execute_pattern w None
       = Some (Patterns.prepare_offboard (-3)
               ++ Patterns.fly_to_position 0 0 (-3) 0 3
               ++ Patterns.fly_to_position 4 0 (-3) 90 3
               ++ Patterns.fly_to_position 4 4 (-3) 180 3
               ++ Patterns.fly_to_position 0 4 (-3) 270 3
               ++ Patterns.fly_to_position 0 0 (-3) 0 3
               ++ Patterns.stop_offboard)
    /\ (forall x y z yaw : R,
           Patterns.fly_to_position x y z yaw 3
           = repeat (SetPositionNed x y z yaw) 50)
    /\ (forall size height delay : R,
           Patterns.fly_square_body size height delay
           = Patterns.prepare_offboard height
             ++ Patterns.fly_points height (Rmax 3 (delay * 3))
                  [ (0, 0, 0); (size, 0, 90); (size, size, 180);
                    (0, size, 270); (0, 0, 0) ]
           /\ 3 <= Rmax 3 (delay * 3)).
Proof.
  intros Hidle data w. subst w.
  split; [ | split; [ | split ] ].
  - simpl. unfold pattern. rewrite Hidle. subst data. cbn.
    rewrite Rabs_pos_eq by lra. reflexivity.
  - unfold execute_pattern. cbn [shape size height delay].
    change (item "square" (pattern_map 4 (-3) 1))
      with (Some (Patterns.fly_square 4 (-3) 1)).
    unfold Patterns.fly_square, Patterns.guarded, fst.
    unfold Patterns.fly_square_body. rewrite flight_time_Rmax.
    replace (Rmax 3 (1 * 3)) with 3
      by (unfold Rmax; destruct (Rle_dec 3 (1 * 3)); lra).
    unfold Patterns.fly_points, Patterns.square_points. cbn [flat_map].
    rewrite app_nil_r, <- !app_assoc. reflexivity.
  - apply fly_to_position_3.
  - intros size0 height0 delay0. split.
    + unfold Patterns.fly_square_body. rewrite flight_time_Rmax. reflexivity.
    + apply Rmax_l.
Qed.

(** *** Closed curves *)

Lemma cos_shift (k : nat) (x y : R) :
  y = x + 2 * INR k * PI -> cos y = cos x.
Proof. intros ->. apply cos_period. Qed.

Lemma sin_shift (k : nat) (x y : R) :
  y = x + 2 * INR k * PI -> sin y = sin x.
Proof. intros ->. apply sin_period. Qed.


Lemma figure8_point_periodic (scale t : R) :
  Patterns.figure8_point scale (t + 2 * PI) = Patterns.figure8_point scale t.
Proof.
  unfold Patterns.figure8_point. simpl.
  rewrite (cos_shift 1 t (t + 2 * PI)) by (simpl; lra).
  rewrite (sin_shift 1 t (t + 2 * PI)) by (simpl; lra).
  reflexivity.
Qed.

Lemma heart_point_periodic (size t : R) :
  Patterns.heart_point size (t + 2 * PI) = Patterns.heart_point size t.
Proof.
  unfold Patterns.heart_point, cube. simpl.
  rewrite (sin_shift 1 t (t + 2 * PI)) by (simpl; lra).
  rewrite (cos_shift 1 t (t + 2 * PI)) by (simpl; lra).
  rewrite (cos_shift 2 (2 * t) (2 * (t + 2 * PI))) by (simpl; lra).
  rewrite (cos_shift 3 (3 * t) (3 * (t + 2 * PI))) by (simpl; lra).
  rewrite (cos_shift 4 (4 * t) (4 * (t + 2 * PI))) by (simpl; lra).
  reflexivity.
Qed.


(** The parameter of the first sample of a drawing loop is 0 and that of
    the last one is [2 * pi]. *)
Lemma parameter_ends (total_steps : Z) :
  (0 < total_steps)%Z ->
  2 * PI * IZR 0 / IZR total_steps = 0
  /\ 2 * PI * IZR total_steps / IZR total_steps = 2 * PI.
Proof.
  intros Hpos. apply IZR_lt in Hpos. split; field; lra.
Qed.


(** *** Headings of the vertex patterns *)

Lemma degrees_R (x : R) : degrees x = x * (180 / PI).
Proof. reflexivity. Qed.

Lemma degrees_half_pi : degrees (PI / 2) = 90.
Proof. rewrite degrees_R. field. apply PI_neq0. Qed.

Lemma degrees_pi : degrees PI = 180.
Proof. rewrite degrees_R. field. apply PI_neq0. Qed.

Lemma degrees_0 : degrees 0 = 0.
Proof. rewrite degrees_R. lra. Qed.

Lemma Ratan2_north (dx : R) : 0 < dx -> Ratan2 0 dx = 0.
Proof.
  intros Hdx. unfold Ratan2.
  destruct (Rlt_dec 0 dx) as [_ | Hn]; [ | contradiction ].
  unfold Rdiv. rewrite Rmult_0_l. apply atan_0.
Qed.

Lemma Ratan2_east (dy : R) : 0 < dy -> Ratan2 dy 0 = PI / 2.
Proof.
  intros Hdy. unfold Ratan2.
  destruct (Rlt_dec 0 0) as [Hn | _]; [ lra | ].
  destruct (Rlt_dec 0 dy) as [_ | Hn]; [ reflexivity | contradiction ].
Qed.

Lemma Ratan2_south (dx : R) : dx < 0 -> Ratan2 0 dx = PI.
Proof.
  intros Hdx. unfold Ratan2.
  destruct (Rlt_dec 0 dx) as [Hn | _]; [ lra | ].
  destruct (Rlt_dec dx 0) as [_ | Hn]; [ | contradiction ].
  destruct (Rle_dec 0 0) as [_ | Hn]; [ | lra ].
  unfold Rdiv. rewrite Rmult_0_l, atan_0. lra.
Qed.

Lemma Ratan2_west (dy : R) : dy < 0 -> Ratan2 dy 0 = - (PI / 2).
Proof.
  intros Hdy. unfold Ratan2.
  destruct (Rlt_dec 0 0) as [Hn | _]; [ lra | ].
  destruct (Rlt_dec 0 dy) as [Hn | _]; [ lra | ].
  destruct (Rlt_dec dy 0) as [_ | Hn]; [ reflexivity | contradiction ].
Qed.

(** In the first quadrant the angle is strictly between 0 and [pi / 2]. *)
Lemma Ratan2_first_quadrant (dy dx : R) :
  0 < dx -> 0 < dy -> 0 < Ratan2 dy dx < PI / 2.
Proof.
  intros Hdx Hdy. unfold Ratan2.
  destruct (Rlt_dec 0 dx) as [_ | Hn]; [ | contradiction ].
  assert (Hq : 0 < dy / dx) by (apply Rdiv_lt_0_compat; assumption).
  split.
  - rewrite <- atan_0. apply atan_increasing. exact Hq.
  - apply atan_bound.
Qed.

Lemma same_heading_refl (a : R) : same_heading a a.
Proof. exists 0%Z. lra. Qed.

(** The square faces the next vertex on each leg. *)
Lemma square_faces_next (size : R) :
  0 < size -> faces_next (Patterns.square_points size).
Proof.
  intros Hsize. unfold Patterns.square_points.
  cbn [faces_next of_Z R_Num]. unfold bearing. cbn [fst snd fatan2 R_Trig].
  repeat split.
  - replace (0 - 0) with 0 by lra. rewrite Ratan2_north by lra.
    rewrite degrees_0. apply same_heading_refl.
  - replace (size - size) with 0 by lra.
    rewrite Ratan2_east by lra. rewrite degrees_half_pi.
    apply same_heading_refl.
  - replace (size - size) with 0 by lra.
    rewrite Ratan2_south by lra. rewrite degrees_pi.
    apply same_heading_refl.
  - replace (0 - 0) with 0 by lra. rewrite Ratan2_west by lra.
    exists 1%Z. rewrite degrees_R.
    replace (- (PI / 2) * (180 / PI)) with (- 90)
      by (field; apply PI_neq0).
    lra.
Qed.

Lemma star_points_radial (size : R) :
  Forall (fun '(x, y, yaw) => yaw = degrees (fatan2 y x))
         (Patterns.star_points size).
Proof.
  unfold Patterns.star_points. apply Forall_map.
  apply Forall_forall. intros idx _.
  destruct (nth idx (Patterns.star_vertices size) (of_Z 0, of_Z 0)).
  reflexivity.
Qed.

(** The star does not face the next vertex: its first waypoint,
    at [(0, -size)], has heading -90, while the next vertex of the order,
    number 2, lies in the first quadrant as seen from it. *)
Lemma star_heading_not_toward_next (size : R) :
  0 < size -> ~ faces_next (Patterns.star_points size).
Proof.
  intros Hsize Hfaces.
  assert (Hv0 : nth 0 (Patterns.star_vertices size) (of_Z 0, of_Z 0)
                = (0, - size)).
  { change (nth 0 (Patterns.star_vertices size) (of_Z 0, of_Z 0))
      with (Patterns.star_vertex size 0).
    unfold Patterns.star_vertex. cbn [of_Z fmul fdiv fsub fpi fcos fsin
                                      R_Num R_Trig].
    replace (2 * PI * 0 / 5 - PI / 2) with (- (PI / 2)) by lra.
    rewrite cos_neg, sin_neg, cos_PI2, sin_PI2. f_equal; lra. }
  assert (Hv2 : nth 2 (Patterns.star_vertices size) (of_Z 0, of_Z 0)
                = (size * cos (3 * PI / 10), size * sin (3 * PI / 10))).
  { change (nth 2 (Patterns.star_vertices size) (of_Z 0, of_Z 0))
      with (Patterns.star_vertex size 2).
    unfold Patterns.star_vertex. cbn [of_Z fmul fdiv fsub fpi fcos fsin
                                      R_Num R_Trig].
    replace (2 * PI * 2 / 5 - PI / 2) with (3 * PI / 10) by lra.
    reflexivity. }
  pose proof PI_RGT_0 as Hpi.
  assert (Hcos : 0 < cos (3 * PI / 10)) by (apply cos_gt_0; lra).
  assert (Hsin : 0 < sin (3 * PI / 10)) by (apply sin_gt_0; lra).
  unfold Patterns.star_points, Patterns.star_order in Hfaces.
  cbn [map] in Hfaces. rewrite Hv0, Hv2 in Hfaces.
  cbn [faces_next] in Hfaces. destruct Hfaces as [[k Hk] _].
  unfold bearing in Hk. cbn [fst snd fatan2 R_Trig] in Hk.
  rewrite Ratan2_west in Hk by lra.
  assert (Hq : 0 < Ratan2 (size * sin (3 * PI / 10) - - size)
                          (size * cos (3 * PI / 10) - 0) < PI / 2).
  { apply Ratan2_first_quadrant; nra. }
  set (a := Ratan2 _ _) in *.
  rewrite !degrees_R in Hk.
  replace (- (PI / 2) * (180 / PI)) with (- 90) in Hk
    by (field; apply PI_neq0).
  assert (Hscale : 0 < 180 / PI) by (apply Rdiv_lt_0_compat; lra).
  assert (Hlo : 0 < a * (180 / PI)) by (apply Rmult_lt_0_compat; tauto).
  assert (Hhi : a * (180 / PI) < 90).
  { replace 90 with (PI / 2 * (180 / PI)) by (field; apply PI_neq0).
    apply Rmult_lt_compat_r; tauto. }
  destruct (Z_le_gt_dec k (-1)) as [Hneg | Hpos].
  - apply IZR_le in Hneg. lra.
  - assert (Hge : (0 <= k)%Z) by lia. apply IZR_le in Hge. lra.
Qed.

(** C7, as the code has it.  For the square, with a positive size, the
    heading of each waypoint but the last is the bearing from that vertex
    toward the next one in the traversal order, and the last waypoint has
    the fixed closing heading 0.  For the star, the heading of every
    waypoint is [degrees(atan2(y, x))], the bearing of the vertex itself
    seen from the centre, and not the bearing toward the next vertex.  (The
    headings of the triangle are left out of the statement.) *)
Theorem vertex_headings (size : R) :
  0 < size ->
  faces_next (Patterns.square_points size)
  /\ length (Patterns.square_points size) = 5%nat
  /\ nth_error (Patterns.square_points size) 4 = Some (0, 0, 0)
  /\ Forall (fun '(x, y, yaw) => yaw = degrees (fatan2 y x))
            (Patterns.star_points size)
  /\ ~ faces_next (Patterns.star_points size).
Proof.
  intros Hsize. split; [ | split; [ | split; [ | split ] ] ].
  - apply square_faces_next, Hsize.
  - reflexivity.
  - reflexivity.
  - apply star_points_radial.
  - apply star_heading_not_toward_next, Hsize.
Qed.

(** C7: the first waypoint of the triangle, at (0, 0), has heading 60,
    and the next vertex, (2, 0) for size 2, is at bearing 0 from it. *)
Lemma triangle_heading_not_toward_next :
  nth_error (Patterns.triangle_points 2) 0 = Some (0, 0, 60)
  /\ (exists h, nth_error (Patterns.triangle_points 2) 1 = Some (2, 0, h))
  /\ bearing (0, 0) (2, 0) = 0
  /\ ~ same_heading 60 (bearing (0, 0) (2, 0))
  /\ ~ faces_next (Patterns.triangle_points 2).
Proof.
  assert (Hb : bearing (0, 0) (2, 0) = 0).
  { unfold bearing. cbn [fst snd fatan2 R_Trig].
    replace (0 - 0) with 0 by lra. rewrite Ratan2_north by lra.
    apply degrees_0. }
  assert (Hne : ~ same_heading 60 (bearing (0, 0) (2, 0))).
  { rewrite Hb. intros [k Hk].
    assert (Hz : IZR 60 = IZR (360 * k)) by (rewrite mult_IZR; lra).
    apply eq_IZR in Hz. lia. }
  split; [ reflexivity | ].
  split; [ eexists; reflexivity | ].
  split; [ exact Hb | ].
  split; [ exact Hne | ].
  intros Hfaces. unfold Patterns.triangle_points in Hfaces.
  cbn [faces_next of_Z R_Num] in Hfaces.
  destruct Hfaces as [Hfirst _]. apply Hne. exact Hfirst.
Qed.

End RealNumbers.

(** ** Closed curves at the parameters the program computes *)

Section FullTurn.
Local Open Scope R_scope.

(** *** Seventeen digits of pi, from Machin's formula *)










(** ** Sine and cosine next to a full turn *)













End FullTurn.

(** ** The generators on concrete requests *)


Lemma square_scenario_witness :
  let w := {| shape := "square"; size := 4%R; height := (-3)%R;
              delay := 1%R |} in
    worker (handle "12:00:00"
              (StartPattern
                 (Parsed {| shape_field := Some "square"%string;
                            size_field := Some 4%R;
                            height_field := Some 3%R;
                            speed_field := Some 1%R |}))
              flight_state) = Some w
    /\ execute_pattern w None
       = Some (Patterns.prepare_offboard (-3)%R
               ++ Patterns.fly_to_position 0%R 0%R (-3)%R 0%R 3%R
               ++ Patterns.fly_to_position 4%R 0%R (-3)%R 90%R 3%R
               ++ Patterns.fly_to_position 4%R 4%R (-3)%R 180%R 3%R
               ++ Patterns.fly_to_position 0%R 4%R (-3)%R 270%R 3%R
               ++ Patterns.fly_to_position 0%R 0%R (-3)%R 0%R 3%R
               ++ Patterns.stop_offboard).
Proof.
  intros w.
  destruct (square_scenario "12:00:00" flight_state eq_refl)
    as [Hworker [Hrun _]].
  split; [ exact Hworker | exact Hrun ].
Defined.

(** The same scenario run on the rationals: the worker, its five waypoints
    with the hold duration, and the number of link calls of a faultless
    run, 5 for priming, 50 per waypoint and the final stop. *)
Lemma square_scenario_computed :
  worker (handle (F := Q) "12:00:00"
            (StartPattern (Parsed Samples.square_data)) flight_state)
  = Some {| shape := "square"; size := inject_Z 4;
            height := inject_Z (-3); delay := inject_Z 1 |}
  /\ Patterns.square_points (inject_Z 4)
     = [ (inject_Z 0, inject_Z 0, inject_Z 0);
         (inject_Z 4, inject_Z 0, inject_Z 90);
         (inject_Z 4, inject_Z 4, inject_Z 180);
         (inject_Z 0, inject_Z 4, inject_Z 270);
         (inject_Z 0, inject_Z 0, inject_Z 0) ]
  /\ Patterns.flight_time (inject_Z 1) = inject_Z 3
  /\ length (fst (Patterns.fly_square (inject_Z 4) (inject_Z (-3))
                                      (inject_Z 1) None)) = 256%nat.
Proof. repeat split. Qed.

(** A request with the height [nan] is accepted, and the square it starts
    is flown with the altitude component [nan] in each of its 255 setpoints:
    not a non-positive number. *)
Lemma nan_height_is_flown :
  let out := handle "12:00:00"
                    (StartPattern (Parsed Samples.nan_height_data))
                    flight_state in
  let w := {| shape := "square"; size := of_Z 5; height := S754_nan;
              delay := dec 1 2 |} in
  let calls := fst (Patterns.fly_square (of_Z 5) S754_nan (dec 1 2) None) in
  http_status (response out) = 200%nat
  /\ worker out = Some w
  /\ (forall T : Trig spec_float,
         @execute_pattern spec_float B64_Num T w None = Some calls)
  /\ length calls = 256%nat
  /\ nth_error calls 0
     = Some (SetPositionNed (of_Z 0) (of_Z 0) S754_nan (of_Z 0))
  /\ Forall (fun c => forall d, down_of c = Some d ->
                                d = S754_nan /\ b64_le d (of_Z 0) = false)
            calls.
Proof.
  intros out w calls.
  split; [ reflexivity | split; [ reflexivity | ] ].
  split; [ intros T; reflexivity | ].
  split; [ reflexivity | split; [ reflexivity | ] ].
  assert (Hdown : all_down_at S754_nan calls).
  { subst calls. apply all_down_at_guarded.
    unfold Patterns.fly_square_body. solve_all_down. }
  apply (Forall_impl (P := fun c => forall d, down_of c = Some d ->
                                              d = S754_nan));
    [ | exact Hdown ].
  intros c Hc d Hd. rewrite (Hc d Hd). split; reflexivity.
Qed.

Lemma pattern_altitude_minus_abs_witness :
  (let out := handle "12:00:00" (StartPattern (Parsed Samples.square_data))
                     flight_state in
   http_status (response out) = 200%nat
   /\ exists (w : Worker R) (calls : list (LinkCall R)),
        worker out = Some w
        /\ height w = (- Rabs (get (height_field Samples.square_data) 5))%R
        /\ execute_pattern w (Some 7%nat) = Some calls
        /\ Forall (fun c => forall d, down_of c = Some d -> d = height w)
                  calls)
  /\ b64_le (- fabs (b64_of_Z 3))%fl (of_Z 0) = true.
Proof.
  split.
  - exact (proj1 pattern_altitude_minus_abs R R_Num R_Trig "12:00:00"%string
             Samples.square_data flight_state (Some 7%nat) eq_refl eq_refl).
  - apply (proj1 (proj2 pattern_altitude_minus_abs) (b64_of_Z 3)).
    discriminate.
Defined.

Lemma vertex_headings_witness :
  faces_next (Patterns.square_points 4%R)
  /\ length (Patterns.square_points 4%R) = 5%nat
  /\ nth_error (Patterns.square_points 4%R) 4 = Some (0, 0, 0)%R
  /\ Forall (fun '(x, y, yaw) => yaw = degrees (fatan2 y x))
            (Patterns.star_points 4%R)
  /\ ~ faces_next (Patterns.star_points 4%R).
Proof.
  apply (vertex_headings 4%R). lra.
Defined.

(** * Further properties of the state machine *)

Import Observe.

(** ** What the ring holds *)

Lemma firstn_app_firstn {A : Type} (n : nat) (a b : list A) :
  firstn n (a ++ firstn n b) = firstn n (a ++ b).
Proof.
  rewrite !firstn_app, firstn_firstn.
  replace (Nat.min (n - length a) n) with (n - length a)%nat by lia.
  reflexivity.
Qed.

(** X1. After any number of [add_log] calls on a ring within capacity, the ring
    holds the 50 most recent entries of the history, the newest first. *)
Theorem ring_holds_most_recent (entries : list LogEntry) (s : FlightState) :
  (length (logs s) <= 50)%nat ->
  logs (log_each entries s) = firstn 50 (rev entries ++ logs s)
  /\ same_flags s (log_each entries s).
Proof.
  revert s. induction entries as [ | e rest IH ]; intros s Hlen.
  - unfold log_each. cbn [fold_left rev app]. split; [ | repeat split ].
    symmetry. apply firstn_all2. exact Hlen.
  - unfold log_each in *. cbn [fold_left].
    destruct (IH (add_log (timestamp e) (action e) (status e) (details e) s))
      as [Hlogs Hflags].
    + unfold add_log, set_logs. cbn [logs].
      apply push_log_bounded. exact Hlen.
    + split.
      * rewrite Hlogs. unfold add_log, set_logs. cbn [logs].
        destruct e as [t a st d]. cbn [timestamp action status details rev].
        rewrite push_log_firstn by exact Hlen.
        rewrite firstn_app_firstn, <- app_assoc. reflexivity.
      * unfold same_flags in *. exact Hflags.
Qed.

Lemma ring_holds_most_recent_witness :
  logs (log_each (repeat Samples.sample_entry 60) flight_state)
  = repeat Samples.sample_entry 50.
Proof.
  destruct (ring_holds_most_recent (repeat Samples.sample_entry 60)
              flight_state (Nat.le_0_l 50)) as [Hlogs _].
  rewrite Hlogs. reflexivity.
Defined.

Section MoreStateMachine.
Context {F : Type} `{Num F}.

(** ** Counters *)

Lemma step_counters (ev : Event F) (s : FlightState) :
  mission_count (step ev s)
  = (mission_count s + (if is_takeoff ev then 1 else 0))%Z
  /\ flight_time (step ev s) = flight_time s.
Proof.
  destruct ev as [now op | now w]; [ | split; simpl; lia ].
  destruct op as [ | | | | | | body | | | body | ]; simpl.
  - split; simpl; lia.
  - unfold disarm, leave_offboard. destruct (is_offboard s); split; simpl; lia.
  - split; simpl; lia.
  - unfold land, leave_offboard. destruct (is_offboard s); split; simpl; lia.
  - unfold rtl, leave_offboard. destruct (is_offboard s); split; simpl; lia.
  - unfold emergency, leave_offboard.
    destruct (is_offboard s); split; simpl; lia.
  - unfold pattern. destruct (current_pattern s); [ split; simpl; lia | ].
    destruct body as [msg | data]; [ split; simpl; lia | ].
    destruct (negb _); split; simpl; lia.
  - unfold offboard_start. destruct (is_offboard s); split; simpl; lia.
  - unfold offboard_stop. destruct (negb (is_offboard s)); split; simpl; lia.
  - unfold velocity.
    destruct (negb (is_offboard s) || negb (velocity_enabled s));
      [ | destruct body ]; split; simpl; lia.
  - split; simpl; lia.
Qed.

(** X2. After any sequence of requests and worker ends, [mission_count] is the
    number of takeoff requests served (no other operation touches it, and
    every takeoff counts), and [flight_time] is still 0. *)
Theorem mission_count_counts_takeoffs (events : list (Event F)) :
  mission_count (run events flight_state) = takeoffs events
  /\ flight_time (run events flight_state) = 0%Z.
Proof.
  assert (Hgen : forall s,
             mission_count (run events s)
             = (mission_count s + takeoffs events)%Z
             /\ flight_time (run events s) = flight_time s).
  { induction events as [ | ev rest IH ]; intros s.
    - unfold takeoffs. simpl. split; lia.
    - simpl run. destruct (IH (step ev s)) as [Hm Hf].
      destruct (step_counters ev s) as [Hm1 Hf1].
      rewrite Hm, Hf, Hm1, Hf1. split; [ | reflexivity ].
      unfold takeoffs. simpl filter.
      destruct (is_takeoff ev); simpl length; lia. }
  destruct (Hgen flight_state) as [Hm Hf]. rewrite Hm, Hf. split; reflexivity.
Qed.

(** ** Stop-style operations *)

(** X3. Disarm, land, returnToLaunch and emergencyKill, served in any state,
    leave offboard inactive, velocity control disabled and no pattern
    recorded; they ask the vehicle to stop offboard first exactly when the
    offboard flag was set, then issue their own action; and a setVelocity
    that follows is rejected without a link call. *)
Theorem stop_style_resets
  (now : string) (op : Op F) (s : FlightState)
  (body : Body (VelocityData F)) :
  stop_style op = true ->
  let out := handle now op s in
  is_offboard (state out) = false
  /\ velocity_enabled (state out) = false
  /\ current_pattern (state out) = None
  /\ link out
     = (if is_offboard s then [OffboardStop] else []) ++ primary_action op
  /\ handle now (SetVelocity body) (state out)
     = {| state := state out;
          response := {| http_status := 400; key := "error";
                         value := "offboard mode not active" |};
          link := [];
          worker := None |}.
Proof.
  intros Hstop.
  destruct op; try discriminate Hstop; simpl;
    unfold disarm, land, rtl, emergency, leave_offboard, velocity;
    destruct (is_offboard s) eqn:E; simpl; rewrite ?E; repeat split.
Qed.

(** ** Offboard start and stop *)

(** X4. startOffboard leaves offboard active in any state, and a second one is
    answered "offboard already active" with no change and no link call;
    stopOffboard after it stops offboard with one link call and disables
    velocity control, and a second one is answered "offboard not active"
    with no change and no link call. *)
Theorem offboard_start_stop_idempotent (now : string) (s : FlightState) :
  let s1 := state (handle (F := F) now StartOffboard s) in
  let s2 := state (handle (F := F) now StopOffboard s1) in
  is_offboard s1 = true
  /\ handle (F := F) now StartOffboard s1
     = {| state := s1; response := ok "status" "offboard already active";
          link := []; worker := None |}
  /\ link (handle (F := F) now StopOffboard s1) = [OffboardStop]
  /\ is_offboard s2 = false
  /\ velocity_enabled s2 = false
  /\ handle (F := F) now StopOffboard s2
     = {| state := s2; response := ok "status" "offboard not active";
          link := []; worker := None |}.
Proof.
  simpl. unfold offboard_start, offboard_stop.
  destruct (is_offboard s) eqn:E; simpl; rewrite ?E; simpl; repeat split.
Qed.

(** ** Velocity commands and patterns *)

(** X5. setVelocity does not look at the running pattern.  From a state with
    offboard active and velocity control enabled, once a startPattern has
    been accepted the pattern is recorded and a setVelocity is still
    accepted: it sends its velocity setpoint and leaves the state as it
    is. *)
Theorem velocity_accepted_during_pattern
  (now : string) (data : PatternData F) (v : VelocityData F)
  (s : FlightState) :
  is_offboard s = true ->
  velocity_enabled s = true ->
  current_pattern s = None ->
  known_shape (lower (get (shape_field data) "square"%string)) = true ->
  let s1 := state (handle now (StartPattern (Parsed data)) s) in
  current_pattern s1
  = Some (lower (get (shape_field data) "square"%string))
  /\ handle now (SetVelocity (Parsed v)) s1
     = {| state := s1;
          response := ok "status" "velocity set";
          link := [SetVelocityBody (get (vx_field v) (of_Z 0))
                                   (get (vy_field v) (of_Z 0))
                                   (get (vz_field v) (of_Z 0))
                                   (get (yaw_rate_field v) (of_Z 0))];
          worker := None |}.
Proof.
  intros Hoff Hvel Hidle Hknown. simpl. unfold pattern.
  rewrite Hidle, Hknown. simpl. unfold velocity. simpl.
  rewrite Hoff, Hvel. simpl. split; reflexivity.
Qed.

(** ** Release of the pattern lock *)

(** X6. In any state, a pattern running or not, once a stop-style operation has
    been served or a worker has ended, a startPattern with a recognised
    shape is accepted and starts a worker.  (A stop-style operation does
    not wait for the worker of the pattern it clears.) *)
Theorem pattern_accepted_after_release
  (now : string) (op : Op F) (w : Worker F) (data : PatternData F)
  (s : FlightState) :
  stop_style op = true ->
  known_shape (lower (get (shape_field data) "square"%string)) = true ->
  let request := StartPattern (Parsed data) in
  (http_status (response (handle now request (state (handle now op s))))
   = 200%nat
   /\ worker (handle now request (state (handle now op s))) <> None)
  /\ (http_status
        (response (handle now request (execute_pattern_done now w s)))
      = 200%nat
      /\ worker (handle now request (execute_pattern_done now w s)) <> None).
Proof.
  intros Hstop Hknown. split.
  - destruct op; try discriminate Hstop; simpl;
      unfold disarm, land, rtl, emergency, leave_offboard, pattern;
      destruct (is_offboard s); simpl; rewrite Hknown; simpl;
      (split; [ reflexivity | discriminate ]).
  - simpl. unfold pattern. simpl. rewrite Hknown. simpl.
    split; [ reflexivity | discriminate ].
Qed.

(** ** Errors *)

(** X7. An operation that is not answered 200 changes nothing in the state but,
    at most, the ring; it makes no link call and starts no worker. *)
Theorem errors_change_only_logs (now : string) (op : Op F) (s : FlightState) :
  http_status (response (handle now op s)) <> 200%nat ->
  same_flags s (state (handle now op s))
  /\ link (handle now op s) = []
  /\ worker (handle now op s) = None.
Proof.
  intros Herr. unfold same_flags.
  destruct op as [ | | | | | | body | | | body | ]; simpl in *;
    try (exfalso; apply Herr; reflexivity).
  - exfalso. apply Herr. unfold disarm, leave_offboard.
    destruct (is_offboard s); reflexivity.
  - exfalso. apply Herr. unfold land, leave_offboard.
    destruct (is_offboard s); reflexivity.
  - exfalso. apply Herr. unfold rtl, leave_offboard.
    destruct (is_offboard s); reflexivity.
  - exfalso. apply Herr. unfold emergency, leave_offboard.
    destruct (is_offboard s); reflexivity.
  - unfold pattern in *. destruct (current_pattern s) eqn:E.
    + simpl. rewrite ?E. repeat split.
    + destruct body as [msg | data].
      * simpl. rewrite ?E. repeat split.
      * destruct (negb _); simpl in *; [ rewrite ?E; repeat split | ].
        exfalso. apply Herr. reflexivity.
  - exfalso. apply Herr. unfold offboard_start.
    destruct (is_offboard s); reflexivity.
  - exfalso. apply Herr. unfold offboard_stop.
    destruct (negb (is_offboard s)); reflexivity.
  - unfold velocity in *.
    destruct (negb (is_offboard s) || negb (velocity_enabled s));
      [ repeat split | ].
    destruct body as [msg | data]; [ repeat split | ].
    exfalso. apply Herr. reflexivity.
Qed.

End MoreStateMachine.

Lemma stop_style_resets_witness :
  let out := handle (F := Q) "12:00:05" Land Samples.offboard_ready in
  is_offboard (state out) = false
  /\ velocity_enabled (state out) = false
  /\ current_pattern (state out) = None
  /\ link out = [OffboardStop; ActionLand]
  /\ handle "12:00:05" (SetVelocity (Parsed Samples.forward_data))
            (state out)
     = {| state := state out;
          response := {| http_status := 400; key := "error";
                         value := "offboard mode not active" |};
          link := [];
          worker := None |}.
Proof.
  exact (stop_style_resets (F := Q) "12:00:05" Land Samples.offboard_ready
           (Parsed Samples.forward_data) eq_refl).
Defined.

Lemma velocity_accepted_during_pattern_witness :
  let s1 := state (handle (F := Q) "12:00:05"
                     (StartPattern (Parsed Samples.square_data))
                     Samples.offboard_ready) in
  current_pattern s1 = Some "square"%string
  /\ handle "12:00:05" (SetVelocity (Parsed Samples.forward_data)) s1
     = {| state := s1;
          response := ok "status" "velocity set";
          link := [SetVelocityBody (inject_Z 1) (inject_Z 0)
                                   (inject_Z 0) (inject_Z 0)];
          worker := None |}.
Proof.
  exact (velocity_accepted_during_pattern (F := Q) "12:00:05"
           Samples.square_data Samples.forward_data Samples.offboard_ready
           eq_refl eq_refl eq_refl eq_refl).
Defined.

Lemma pattern_accepted_after_release_witness :
  worker (handle (F := Q) "12:00:05"
            (StartPattern (Parsed Samples.square_data))
            (state (handle "12:00:05" Land Samples.square_running)))
  <> None.
Proof.
  exact (proj2 (proj1 (pattern_accepted_after_release (F := Q) "12:00:05"
                         Land
                         {| shape := "square"; size := inject_Z 4;
                            height := inject_Z (-3); delay := inject_Z 1 |}
                         Samples.square_data Samples.square_running
                         eq_refl eq_refl))).
Defined.

Lemma errors_change_only_logs_witness :
  same_flags Samples.square_running
    (state (handle (F := Q) "12:00:05"
              (StartPattern (Parsed Samples.square_data))
              Samples.square_running))
  /\ link (handle (F := Q) "12:00:05"
             (StartPattern (Parsed Samples.square_data))
             Samples.square_running) = []
  /\ worker (handle (F := Q) "12:00:05"
               (StartPattern (Parsed Samples.square_data))
               Samples.square_running) = None.
Proof.
  apply (errors_change_only_logs (F := Q) "12:00:05"
           (StartPattern (Parsed Samples.square_data))
           Samples.square_running).
  simpl. discriminate.
Defined.

(** ** Shapes are matched without regard to case *)

Lemma lower_ascii_idempotent (c : ascii) :
  lower_ascii (lower_ascii c) = lower_ascii c.
Proof.
  destruct c as [[] [] [] [] [] [] [] []]; reflexivity.
Qed.

Lemma lower_idempotent (s : string) : lower (lower s) = lower s.
Proof.
  induction s as [ | c rest IH ]; simpl.
  - reflexivity.
  - rewrite lower_ascii_idempotent, IH. reflexivity.
Qed.

(** X8. The outcome of a startPattern request depends on its shape only through
    the lower-cased shape: two bodies that differ in the case of the letters
    of the shape (or where one leaves the shape out and the other says
    "square") get the same answer, state, and worker; and lower-casing is
    idempotent, so a body may as well carry the lower-cased shape. *)
Theorem shape_matched_case_insensitively
  {F : Type} `{Num F}
  (now : string) (data : PatternData F) (sh : string) (s : FlightState) :
  lower sh = lower (get (shape_field data) "square"%string) ->
  handle now (StartPattern (Parsed (with_shape sh data))) s
  = handle now (StartPattern (Parsed data)) s
  /\ handle now (StartPattern (Parsed (with_shape (lower sh) data))) s
     = handle now (StartPattern (Parsed data)) s.
Proof.
  intros Hsame. simpl. unfold pattern, with_shape. simpl.
  rewrite lower_idempotent, Hsame. split; reflexivity.
Qed.

Lemma shape_matched_case_insensitively_witness :
  handle (F := Q) "12:00:00"
         (StartPattern (Parsed (with_shape "SQuare" Samples.zero_size_data)))
         flight_state
  = handle "12:00:00" (StartPattern (Parsed Samples.zero_size_data))
           flight_state.
Proof.
  exact (proj1 (shape_matched_case_insensitively (F := Q) "12:00:00"
                  Samples.zero_size_data "SQuare" flight_state eq_refl)).
Defined.

(** * Further properties of the pattern runs *)

Section Sessions.
Context {F : Type} `{Num F} `{Trig F}.

Lemma setpoints_only_app (l1 l2 : list (LinkCall F)) :
  setpoints_only l1 -> setpoints_only l2 -> setpoints_only (l1 ++ l2).
Proof. intros H1 H2. apply Forall_app. split; assumption. Qed.

Lemma setpoints_only_repeat (x y z yaw : F) (n : nat) :
  setpoints_only (repeat (SetPositionNed x y z yaw) n).
Proof.
  induction n as [ | n IH ]; simpl; constructor; [ reflexivity | exact IH ].
Qed.

Lemma setpoints_only_fly_to_position (x y z yaw duration : F) :
  setpoints_only (Patterns.fly_to_position x y z yaw duration).
Proof.
  unfold Patterns.fly_to_position.
  apply setpoints_only_app; apply setpoints_only_repeat.
Qed.

Lemma setpoints_only_fly_points (z duration : F) (points : list (F * F * F)) :
  setpoints_only (Patterns.fly_points z duration points).
Proof.
  unfold Patterns.fly_points.
  induction points as [ | [[x y] yaw] rest IH ]; simpl.
  - constructor.
  - apply setpoints_only_app;
      [ apply setpoints_only_fly_to_position | exact IH ].
Qed.

Lemma setpoints_only_draw (z delay : F) (samples : list (F * F * F)) :
  setpoints_only (Patterns.draw z delay samples).
Proof.
  unfold Patterns.draw.
  induction samples as [ | [[x y] yaw] rest IH ]; simpl.
  - constructor.
  - apply setpoints_only_app; [ apply setpoints_only_repeat | exact IH ].
Qed.

Lemma setpoints_only_firstn (n : nat) (l : list (LinkCall F)) :
  setpoints_only l -> setpoints_only (firstn n l).
Proof.
  revert l. induction n as [ | n IH ]; intros l Hl; simpl.
  - constructor.
  - destruct l as [ | c l ]; [ constructor | ].
    inversion Hl; subst. constructor; [ assumption | apply IH; assumption ].
Qed.

Lemma setpoints_only_no_stop (l : list (LinkCall F)) :
  setpoints_only l -> filter is_stop l = [].
Proof.
  induction 1 as [ | c l Hc _ IH ]; simpl; [ reflexivity | ].
  destruct c; try discriminate Hc. exact IH.
Qed.

End Sessions.

Ltac solve_setpoints_only :=
  repeat first
    [ apply setpoints_only_fly_points
    | apply setpoints_only_fly_to_position
    | apply setpoints_only_draw
    | apply setpoints_only_repeat
    | apply setpoints_only_app ].

Section SessionsOfWorkers.
Context {F : Type} `{Num F} `{Trig F}.

(** Every coroutine of [pattern_map] is the priming sequence followed by
    position setpoints, inside the teardown frame. *)
Lemma worker_body (w : Worker F) :
  known_shape (shape w) = true ->
  exists rest : list (LinkCall F),
    setpoints_only rest
    /\ forall fault,
        execute_pattern w fault
        = Some (fst (Patterns.guarded
                       (Patterns.prepare_offboard (height w) ++ rest)
                       fault)).
Proof.
  intros Hk. apply known_shape_cases in Hk.
  unfold execute_pattern.
  destruct w as [sh sz h d]. unfold shape, size, height, delay.
  unfold pattern_names in Hk. cbn [shape In] in Hk.
  repeat (destruct Hk as [Hk | Hk]; [ subst sh | ]); try contradiction.
  - eexists. split; [ | intros fault; reflexivity ]. solve_setpoints_only.
  - eexists. split; [ | intros fault; reflexivity ]. solve_setpoints_only.
  - eexists. split; [ | intros fault; reflexivity ].
    unfold Patterns.hold_final. solve_setpoints_only.
  - eexists. split; [ | intros fault; reflexivity ]. solve_setpoints_only.
  - eexists. split; [ | intros fault; reflexivity ].
    unfold Patterns.hold_final. solve_setpoints_only.
  - exists (Patterns.fly_to_position
              (fst (Patterns.heart_point sz (of_Z 0)))
              (snd (Patterns.heart_point sz (of_Z 0))) h (of_Z 90) (of_Z 3)
            ++ Patterns.draw h d
                 (map (Patterns.heart_sample sz (Z.max 50 150))
                      (range (Z.max 50 150 + 1)))
            ++ Patterns.hold_final
                 (fst (Patterns.heart_point sz (of_Z 0)))
                 (snd (Patterns.heart_point sz (of_Z 0))) h (of_Z 90)).
    split; [ | intros fault; reflexivity ].
    unfold Patterns.hold_final. solve_setpoints_only.
  - eexists. split; [ | intros fault; reflexivity ].
    unfold Patterns.hold_final. solve_setpoints_only.
  - exists (Patterns.fly_to_position
              (fst (Patterns.figure8_point (sz / dec 3 2)%fl (of_Z 0)))
              (snd (Patterns.figure8_point (sz / dec 3 2)%fl (of_Z 0)))
              h (of_Z 90) (of_Z 3)
            ++ Patterns.draw h d
                 (map (Patterns.figure8_sample (sz / dec 3 2)%fl
                                               (Z.max 40 120))
                      (range (Z.max 40 120 + 1)))
            ++ Patterns.hold_final
                 (fst (Patterns.figure8_point (sz / dec 3 2)%fl (of_Z 0)))
                 (snd (Patterns.figure8_point (sz / dec 3 2)%fl (of_Z 0)))
                 h (of_Z 90)).
    split; [ | intros fault; reflexivity ].
    unfold Patterns.hold_final. solve_setpoints_only.
Qed.

End SessionsOfWorkers.

Section SessionShape.
Context {F : Type} `{Num F} `{Trig F}.

(** X9. [pattern_map[shape]] in the worker thread never fails: every worker a
    handler starts has a shape of [pattern_map], so its coroutine exists,
    with or without a fault; only startPattern starts workers. *)
Theorem spawned_worker_has_coroutine
  (now : string) (op : Op F) (s : FlightState) (w : Worker F)
  (fault : option nat) :
  worker (handle now op s) = Some w ->
  (exists body, op = StartPattern (Parsed body))
  /\ known_shape (shape w) = true
  /\ exists calls, execute_pattern w fault = Some calls.
Proof.
  intros Hw.
  assert (Hop : (exists body, op = StartPattern (Parsed body))
                /\ known_shape (shape w) = true).
  { destruct op as [ | | | | | | body | | | body | ]; simpl in Hw;
      try discriminate Hw.
    - unfold disarm, leave_offboard in Hw.
      destruct (is_offboard s); discriminate Hw.
    - unfold land, leave_offboard in Hw.
      destruct (is_offboard s); discriminate Hw.
    - unfold rtl, leave_offboard in Hw.
      destruct (is_offboard s); discriminate Hw.
    - unfold emergency, leave_offboard in Hw.
      destruct (is_offboard s); discriminate Hw.
    - unfold pattern in Hw.
      destruct (current_pattern s); [ discriminate Hw | ].
      destruct body as [msg | data]; [ discriminate Hw | ].
      destruct (known_shape _) eqn:Hk; simpl in Hw; [ | discriminate Hw ].
      injection Hw as Hw. subst w. split; [ eexists; reflexivity | exact Hk ].
    - unfold offboard_start in Hw. destruct (is_offboard s); discriminate Hw.
    - unfold offboard_stop in Hw.
      destruct (negb (is_offboard s)); discriminate Hw.
    - unfold velocity in Hw.
      destruct (negb (is_offboard s) || negb (velocity_enabled s));
        [ discriminate Hw | destruct body; discriminate Hw ]. }
  destruct Hop as [Hbody Hk]. split; [ exact Hbody | split; [ exact Hk | ] ].
  destruct (worker_body w Hk) as [rest [_ Hrun]].
  eexists. apply Hrun.
Qed.

(** X10. A run without a fault of any pattern is one offboard session: the seed
    setpoint at the origin, the offboard start, position setpoints, and the
    offboard stop as the last call.  Offboard is started once, after a
    setpoint has been queued, and stopped once. *)
Theorem pattern_run_is_one_session (w : Worker F) :
  known_shape (shape w) = true ->
  exists setpoints : list (LinkCall F),
    execute_pattern w None
    = Some (SetPositionNed (of_Z 0) (of_Z 0) (height w) (of_Z 0)
            :: OffboardStart :: setpoints ++ [OffboardStop])
    /\ setpoints_only setpoints
    /\ (3 <= length setpoints)%nat.
Proof.
  intros Hk. destruct (worker_body w Hk) as [rest [Hrest Hrun]].
  exists (repeat (SetPositionNed (of_Z 0) (of_Z 0) (height w) (of_Z 0)) 3
          ++ rest).
  split; [ | split ].
  - rewrite Hrun. unfold Patterns.guarded, fst, Patterns.prepare_offboard,
      Patterns.stop_offboard.
    rewrite <- !app_assoc. reflexivity.
  - apply setpoints_only_app; [ apply setpoints_only_repeat | exact Hrest ].
  - rewrite length_app, repeat_length. lia.
Qed.

(** X11. A run cut short by a fault at call number [k] is the first [k + 1]
    calls of the run without a fault (all of them but the stop, when [k] is
    beyond the end), followed by the offboard stop.  Either way the run
    starts with the seed setpoint and asks for the offboard stop exactly
    once, as its last call. *)
Theorem faulted_run_is_prefix_then_teardown (w : Worker F) (k : nat) :
  known_shape (shape w) = true ->
  exists body : list (LinkCall F),
    execute_pattern w None = Some (body ++ [OffboardStop])
    /\ execute_pattern w (Some k)
       = Some (firstn (S k) body ++ [OffboardStop])
    /\ hd_error (firstn (S k) body ++ [OffboardStop])
       = Some (SetPositionNed (of_Z 0) (of_Z 0) (height w) (of_Z 0))
    /\ teardowns (firstn (S k) body ++ [OffboardStop]) = 1%nat
    /\ teardowns (body ++ [OffboardStop]) = 1%nat.
Proof.
  intros Hk. destruct (worker_body w Hk) as [rest [Hrest Hrun]].
  set (seed := SetPositionNed (of_Z 0) (of_Z 0) (height w) (of_Z 0)).
  set (tail := repeat seed 3 ++ rest).
  assert (Hbody : Patterns.prepare_offboard (height w) ++ rest
                  = seed :: OffboardStart :: tail).
  { unfold Patterns.prepare_offboard, tail, seed.
    rewrite <- app_assoc. reflexivity. }
  assert (Htail : setpoints_only tail).
  { apply setpoints_only_app; [ apply setpoints_only_repeat | exact Hrest ]. }
  exists (seed :: OffboardStart :: tail).
  rewrite !Hrun, Hbody. unfold Patterns.guarded, fst, Patterns.stop_offboard.
  split; [ reflexivity | split; [ | split; [ reflexivity | split ] ] ].
  - destruct (Nat.ltb_spec k (length (seed :: OffboardStart :: tail)))
      as [Hlt | Hge]; [ reflexivity | ].
    rewrite firstn_all2 by lia. reflexivity.
  - unfold teardowns. rewrite filter_app, length_app.
    destruct k as [ | k ]; [ reflexivity | ].
    cbn [firstn filter is_stop seed].
    rewrite (setpoints_only_no_stop (firstn k tail))
      by (apply setpoints_only_firstn; exact Htail).
    reflexivity.
  - unfold teardowns. rewrite filter_app, length_app.
    cbn [filter is_stop seed].
    rewrite (setpoints_only_no_stop tail) by exact Htail. reflexivity.
Qed.

End SessionShape.

Lemma spawned_worker_has_coroutine_witness :
  known_shape "square" = true
  /\ exists calls : list (LinkCall R),
       execute_pattern
         {| shape := "square"; size := 4%R; height := (- Rabs 3)%R;
            delay := 1%R |} (Some 7%nat) = Some calls.
Proof.
  exact (proj2 (spawned_worker_has_coroutine (F := R) "12:00:00"
                  (StartPattern (Parsed Samples.square_data)) flight_state
                  {| shape := "square"; size := 4%R; height := (- Rabs 3)%R;
                     delay := 1%R |}
                  (Some 7%nat) eq_refl)).
Defined.

Lemma pattern_run_is_one_session_witness :
  exists setpoints : list (LinkCall R),
    execute_pattern
      {| shape := "heart"; size := 5%R; height := (-5)%R; delay := 1%R |} None
    = Some (SetPositionNed 0%R 0%R (-5)%R 0%R
            :: OffboardStart :: setpoints ++ [OffboardStop])
    /\ setpoints_only setpoints
    /\ (3 <= length setpoints)%nat.
Proof.
  exact (pattern_run_is_one_session (F := R)
           {| shape := "heart"; size := 5%R; height := (-5)%R;
              delay := 1%R |} eq_refl).
Defined.

Lemma faulted_run_is_prefix_then_teardown_witness :
  exists body : list (LinkCall R),
    execute_pattern
      {| shape := "star"; size := 5%R; height := (-5)%R; delay := 1%R |} None
    = Some (body ++ [OffboardStop])
    /\ execute_pattern
         {| shape := "star"; size := 5%R; height := (-5)%R; delay := 1%R |}
         (Some 1%nat)
       = Some (firstn 2 body ++ [OffboardStop])
    /\ hd_error (firstn 2 body ++ [OffboardStop])
       = Some (SetPositionNed 0%R 0%R (-5)%R 0%R)
    /\ teardowns (firstn 2 body ++ [OffboardStop]) = 1%nat
    /\ teardowns (body ++ [OffboardStop]) = 1%nat.
Proof.
  exact (faulted_run_is_prefix_then_teardown (F := R)
           {| shape := "star"; size := 5%R; height := (-5)%R;
              delay := 1%R |} 1 eq_refl).
Defined.

(** * Further properties of the generators over the reals *)

Section MoreRealNumbers.
Local Open Scope R_scope.

(** ** Truncation *)

Lemma Rtrunc_lower (r : R) (z : Z) :
  (0 <= z)%Z -> IZR z <= r -> (z <= Rtrunc r)%Z.
Proof.
  intros Hz Hr. apply IZR_le in Hz. unfold Rtrunc.
  destruct (Rle_dec 0 r) as [_ | Hneg]; [ | lra ].
  destruct (base_Int_part r) as [_ Hlow].
  assert (Hlt : IZR (z - 1) < IZR (Int_part r)) by (rewrite minus_IZR; lra).
  apply lt_IZR in Hlt. lia.
Qed.

Lemma Rtrunc_upper (r : R) (z : Z) :
  (0 <= z)%Z -> r < IZR z + 1 -> (Rtrunc r <= z)%Z.
Proof.
  intros Hz Hr. unfold Rtrunc.
  destruct (Rle_dec 0 r) as [Hpos | Hneg].
  - destruct (base_Int_part r) as [Hup _].
    assert (Hlt : IZR (Int_part r) < IZR (z + 1)) by (rewrite plus_IZR; lra).
    apply lt_IZR in Hlt. lia.
  - destruct (base_Int_part (- r)) as [_ Hlow].
    assert (Hlt : IZR (-1) < IZR (Int_part (- r))) by lra.
    apply lt_IZR in Hlt. lia.
Qed.

(** ** How long a waypoint is held *)

Lemma fly_to_position_length (x y z yaw duration : R) :
  length (Patterns.fly_to_position x y z yaw duration)
  = (Z.to_nat (Rtrunc (duration * 10)) + 20)%nat.
Proof.
  unfold Patterns.fly_to_position.
  rewrite length_app, !repeat_length. reflexivity.
Qed.

(** X12. [fly_to_position] sends [int(duration * 10) + 20] setpoints: never
    fewer than 20, exactly 20 when the duration is below 0.1 s (zero and
    negative durations included), and at least 50 when it is 3 s or more. *)
Theorem fly_to_position_transmissions (x y z yaw duration : R) :
  (20 <= length (Patterns.fly_to_position x y z yaw duration))%nat
  /\ (duration < 1 / 10 ->
      Patterns.fly_to_position x y z yaw duration
      = repeat (SetPositionNed x y z yaw) 20)
  /\ (3 <= duration ->
      (50 <= length (Patterns.fly_to_position x y z yaw duration))%nat).
Proof.
  split; [ rewrite fly_to_position_length; lia | split ].
  - intros Hshort. unfold Patterns.fly_to_position.
    cbn [ftrunc fmul of_Z R_Num].
    assert (Hz : (Rtrunc (duration * 10) <= 0)%Z)
      by (apply Rtrunc_upper; [ lia | lra ]).
    replace (Z.to_nat (Rtrunc (duration * 10))) with 0%nat by lia.
    reflexivity.
  - intros Hlong. rewrite fly_to_position_length.
    assert (Hz : (30 <= Rtrunc (duration * 10))%Z)
      by (apply Rtrunc_lower; [ lia | lra ]).
    lia.
Qed.

Lemma fly_to_position_transmissions_witness :
  Patterns.fly_to_position 4 0 (-3) 90 (-2)
  = repeat (SetPositionNed 4 0 (-3) 90) 20
  /\ (50 <= length (Patterns.fly_to_position 4%R 0%R (-3)%R 90%R 5%R))%nat.
Proof.
  split.
  - apply (proj1 (proj2 (fly_to_position_transmissions 4 0 (-3) 90 (-2)))).
    lra.
  - apply (proj2 (proj2 (fly_to_position_transmissions 4 0 (-3) 90 5))).
    lra.
Defined.

(** ** The speed factor below its thresholds *)

Lemma flight_time_floor (delay : R) :
  delay <= 1 -> Patterns.flight_time delay = 3.
Proof.
  intros Hd. rewrite flight_time_Rmax. unfold Rmax.
  destruct (Rle_dec 3 (delay * 3)); lra.
Qed.

Lemma star_flight_time_floor (delay : R) :
  delay <= 1 -> Patterns.star_flight_time delay = 5 / 2.
Proof.
  intros Hd. unfold Patterns.star_flight_time, fmax, dec.
  cbn [fgt fmul fdiv of_Z R_Num]. unfold Rgtb.
  destruct (Rlt_dec (5 / 2) (delay * (5 / 2))); [ lra | reflexivity ].
Qed.

Lemma repeat_count_floor (delay : R) :
  delay < 2 / 5 -> Patterns.repeat_count delay = 3%Z.
Proof.
  intros Hd. unfold Patterns.repeat_count. cbn [ftrunc fmul of_Z R_Num].
  assert (Hz : (Rtrunc (delay * 10) <= 3)%Z)
    by (apply Rtrunc_upper; [ lia | lra ]).
  lia.
Qed.

Lemma draw_floor (height delay delay' : R) (samples : list (R * R * R)) :
  delay < 2 / 5 -> delay' < 2 / 5 ->
  Patterns.draw height delay samples = Patterns.draw height delay' samples.
Proof.
  intros Hd Hd'. unfold Patterns.draw. apply flat_map_ext.
  intros [[x y] yaw]. unfold Patterns.send_sample.
  rewrite !repeat_count_floor by assumption. reflexivity.
Qed.

(** X13. The speed factor has no effect below its thresholds.  Two speed factors
    not above 1 give the same square, triangle and star runs (the hold
    duration stays at its floor, 3 s or 2.5 s); two speed factors below 0.4
    give the same circle, infinity, heart, spiral and figure-8 runs (each
    sample is sent 3 times). *)
Theorem speed_factor_floors
  (size height : R) (steps : Z) (delay delay' : R) :
  (delay <= 1 -> delay' <= 1 ->
   Patterns.fly_square_body size height delay
   = Patterns.fly_square_body size height delay'
   /\ Patterns.fly_triangle_body size height delay
      = Patterns.fly_triangle_body size height delay'
   /\ Patterns.fly_star_body size height delay
      = Patterns.fly_star_body size height delay')
  /\ (delay < 2 / 5 -> delay' < 2 / 5 ->
      Patterns.fly_circle_body size height steps delay
      = Patterns.fly_circle_body size height steps delay'
      /\ Patterns.fly_infinity_body size height steps delay
         = Patterns.fly_infinity_body size height steps delay'
      /\ Patterns.fly_heart_body size height steps delay
         = Patterns.fly_heart_body size height steps delay'
      /\ Patterns.fly_spiral_body size height steps delay
         = Patterns.fly_spiral_body size height steps delay'
      /\ Patterns.fly_figure8_body size height steps delay
         = Patterns.fly_figure8_body size height steps delay').
Proof.
  split.
  - intros Hd Hd'.
    unfold Patterns.fly_square_body, Patterns.fly_triangle_body,
      Patterns.fly_star_body.
    rewrite !flight_time_floor, !star_flight_time_floor by assumption.
    repeat split.
  - intros Hd Hd'.
    unfold Patterns.fly_circle_body, Patterns.fly_infinity_body,
      Patterns.fly_heart_body, Patterns.fly_spiral_body,
      Patterns.fly_figure8_body.
    repeat split;
      repeat (rewrite (draw_floor height delay delay') by assumption);
      reflexivity.
Qed.

Lemma speed_factor_floors_witness :
  Patterns.fly_square_body 4 (-3) (1 / 2) = Patterns.fly_square_body 4 (-3) 1
  /\ Patterns.fly_circle_body 4 (-3) 30 (1 / 10)
     = Patterns.fly_circle_body 4 (-3) 30 (3 / 10).
Proof.
  split.
  - apply (proj1 (speed_factor_floors 4 (-3) 30 (1 / 2) 1)); lra.
  - apply (proj2 (speed_factor_floors 4 (-3) 30 (1 / 10) (3 / 10))); lra.
Defined.

End MoreRealNumbers.

(** * Length of the runs on binary64 floats *)

Section RunLengths.
Context {F : Type} `{Num F}.

Lemma fly_to_position_calls (x y z yaw duration : F) :
  length (Patterns.fly_to_position x y z yaw duration)
  = (Z.to_nat (ftrunc (duration * of_Z 10)%fl) + 20)%nat.
Proof.
  unfold Patterns.fly_to_position.
  rewrite length_app, !repeat_length. reflexivity.
Qed.

Lemma fly_points_calls (z duration : F) (points : list (F * F * F)) :
  length (Patterns.fly_points z duration points)
  = (length points
     * (Z.to_nat (ftrunc (duration * of_Z 10)%fl) + 20))%nat.
Proof.
  unfold Patterns.fly_points.
  induction points as [ | [[x y] yaw] rest IH ]; [ reflexivity | ].
  cbn [flat_map length]. rewrite length_app, IH, fly_to_position_calls.
  lia.
Qed.

Lemma curve_body_calls
  (height delay x0 y0 yaw0 d0 x1 y1 yaw1 : F)
  (samples : list (F * F * F)) :
  length (Patterns.prepare_offboard height
          ++ Patterns.fly_to_position x0 y0 height yaw0 d0
          ++ Patterns.draw height delay samples
          ++ Patterns.hold_final x1 y1 height yaw1)
  = (25 + (Z.to_nat (ftrunc (d0 * of_Z 10)%fl) + 20)
     + length samples * Z.to_nat (Patterns.repeat_count delay))%nat.
Proof.
  rewrite !length_app, fly_to_position_calls, draw_length.
  unfold Patterns.hold_final. rewrite repeat_length.
  cbn [Patterns.prepare_offboard length app repeat]. lia.
Qed.

End RunLengths.

(** [int(3.0 * 10)], [int(max(3.0, delay * 3) * 10)] and
    [int(max(2.5, delay * 2.5) * 10)] with the hold at its floor. *)
Lemma b64_transit_steps :
  ftrunc (of_Z 3 * of_Z 10 : spec_float)%fl = 30%Z
  /\ ftrunc (dec 5 2 * of_Z 10 : spec_float)%fl = 25%Z.
Proof. split; vm_compute; reflexivity. Qed.

Section Binary64Runs.
Context (T : Trig spec_float).

Lemma b64_curve_body_calls
  (height delay x0 y0 yaw0 x1 y1 yaw1 : spec_float)
  (samples : list (spec_float * spec_float * spec_float)) :
  length (Patterns.prepare_offboard height
          ++ Patterns.fly_to_position x0 y0 height yaw0 (of_Z 3)
          ++ Patterns.draw height delay samples
          ++ Patterns.hold_final x1 y1 height yaw1)
  = (75 + length samples * Z.to_nat (Patterns.repeat_count delay))%nat.
Proof.
  rewrite curve_body_calls, (proj1 b64_transit_steps). reflexivity.
Qed.

Lemma b64_curve_lengths
  (size height : spec_float) (steps : Z) (delay : spec_float) :
  let n := Z.to_nat (Z.max 3 (b64_trunc (delay * of_Z 10)%fl)) in
  let samples := fun floor => (Z.to_nat (Z.max steps floor) + 1)%nat in
  length (Patterns.fly_circle_body size height steps delay)
  = (75 + samples 100%Z * n)%nat
  /\ length (Patterns.fly_spiral_body size height steps delay)
     = (75 + samples 100%Z * n)%nat
  /\ length (Patterns.fly_infinity_body size height steps delay)
     = (75 + samples 120%Z * n)%nat
  /\ length (Patterns.fly_figure8_body size height steps delay)
     = (75 + samples 120%Z * n)%nat
  /\ length (Patterns.fly_heart_body size height steps delay)
     = (75 + samples 150%Z * n)%nat.
Proof.
  intros n samples.
  assert (Hlen : forall (f : Z -> spec_float * spec_float * spec_float)
                        floor,
             (0 <= floor)%Z ->
             length (map f (range (Z.max steps floor + 1))) = samples floor).
  { intros f floor Hfloor. rewrite length_map, range_length.
    unfold samples. lia. }
  split; [ | split; [ | split; [ | split ] ] ].
  - unfold Patterns.fly_circle_body.
    rewrite b64_curve_body_calls, Hlen by lia. reflexivity.
  - unfold Patterns.fly_spiral_body.
    rewrite b64_curve_body_calls, Hlen by lia. reflexivity.
  - unfold Patterns.fly_infinity_body.
    rewrite b64_curve_body_calls, Hlen by lia. reflexivity.
  - unfold Patterns.fly_figure8_body.
    destruct (Patterns.figure8_point _ (of_Z 0)) as [x0 y0].
    rewrite b64_curve_body_calls, Hlen by lia. reflexivity.
  - unfold Patterns.fly_heart_body.
    destruct (Patterns.heart_point size (of_Z 0)) as [x0 y0].
    rewrite b64_curve_body_calls, Hlen by lia. reflexivity.
Qed.

Lemma b64_curve_floors
  (size height : spec_float) (steps : Z) (delay : spec_float) :
  Patterns.fly_circle_body size height steps delay
  = Patterns.fly_circle_body size height (Z.max steps 100) delay
  /\ Patterns.fly_spiral_body size height steps delay
     = Patterns.fly_spiral_body size height (Z.max steps 100) delay
  /\ Patterns.fly_infinity_body size height steps delay
     = Patterns.fly_infinity_body size height (Z.max steps 120) delay
  /\ Patterns.fly_figure8_body size height steps delay
     = Patterns.fly_figure8_body size height (Z.max steps 120) delay
  /\ Patterns.fly_heart_body size height steps delay
     = Patterns.fly_heart_body size height (Z.max steps 150) delay.
Proof.
  unfold Patterns.fly_circle_body, Patterns.fly_spiral_body,
    Patterns.fly_infinity_body, Patterns.fly_figure8_body,
    Patterns.fly_heart_body.
  rewrite <- !Z.max_assoc, !Z.max_id. repeat split.
Qed.

Lemma b64_vertex_lengths (size height delay : spec_float) :
  let per := fun hold : spec_float =>
               (Z.to_nat (b64_trunc (hold * of_Z 10)%fl) + 20)%nat in
  length (Patterns.fly_square_body size height delay)
  = (5 + 5 * per (Patterns.flight_time delay))%nat
  /\ length (Patterns.fly_triangle_body size height delay)
     = (5 + 4 * per (Patterns.flight_time delay))%nat
  /\ length (Patterns.fly_star_body size height delay)
     = (5 + 6 * per (Patterns.star_flight_time delay))%nat.
Proof.
  intros per.
  unfold Patterns.fly_square_body, Patterns.fly_triangle_body,
    Patterns.fly_star_body.
  rewrite !length_app, !fly_points_calls. repeat split.
Qed.

End Binary64Runs.

(** X14. On binary64 floats, for a speed factor [delay] whose product
    [delay * 10] is finite (on [nan] and the infinities [int] raises in the
    first step of the drawing loop, which cuts the run there), and whatever
    the C library's functions are: the number of link calls of a curve run
    before its final stop is 75, for priming, transit and final hold, plus
    [max(3, int(delay * 10))] for each of the [max(steps, floor) + 1]
    samples, the floor being 100 for circle and spiral, 120 for infinity
    and figure-8, 150 for heart.  A step count below the floor gives the
    run of the floor, and no such run is shorter than 378, 438 or 528
    calls. *)
Theorem curve_run_lengths (steps : Z) (delay : spec_float) :
  b64_is_finite (delay * of_Z 10)%fl = true ->
  forall (T : Trig spec_float) (size height : spec_float),
    let n := Z.to_nat (Z.max 3 (b64_trunc (delay * of_Z 10)%fl)) in
    let samples := fun floor => (Z.to_nat (Z.max steps floor) + 1)%nat in
    (3 <= n)%nat
    /\ (length (Patterns.fly_circle_body size height steps delay)
        = (75 + samples 100%Z * n)%nat
        /\ length (Patterns.fly_spiral_body size height steps delay)
           = (75 + samples 100%Z * n)%nat
        /\ length (Patterns.fly_infinity_body size height steps delay)
           = (75 + samples 120%Z * n)%nat
        /\ length (Patterns.fly_figure8_body size height steps delay)
           = (75 + samples 120%Z * n)%nat
        /\ length (Patterns.fly_heart_body size height steps delay)
           = (75 + samples 150%Z * n)%nat)
    /\ (Patterns.fly_circle_body size height steps delay
        = Patterns.fly_circle_body size height (Z.max steps 100) delay
        /\ Patterns.fly_spiral_body size height steps delay
           = Patterns.fly_spiral_body size height (Z.max steps 100) delay
        /\ Patterns.fly_infinity_body size height steps delay
           = Patterns.fly_infinity_body size height (Z.max steps 120) delay
        /\ Patterns.fly_figure8_body size height steps delay
           = Patterns.fly_figure8_body size height (Z.max steps 120) delay
        /\ Patterns.fly_heart_body size height steps delay
           = Patterns.fly_heart_body size height (Z.max steps 150) delay)
    /\ (378 <= length (Patterns.fly_circle_body size height steps delay))%nat
    /\ (378 <= length (Patterns.fly_spiral_body size height steps delay))%nat
    /\ (438 <= length (Patterns.fly_infinity_body size height steps
                                                  delay))%nat
    /\ (438 <= length (Patterns.fly_figure8_body size height steps
                                                 delay))%nat
    /\ (528 <= length (Patterns.fly_heart_body size height steps delay))%nat.
Proof.
  intros _ T size height n samples.
  assert (Hn : (3 <= n)%nat) by (unfold n; lia).
  pose proof (b64_curve_lengths T size height steps delay) as Hlen.
  cbv zeta in Hlen. fold n in Hlen.
  destruct Hlen as [Hc [Hs [Hi [Hf Hh]]]].
  split; [ exact Hn | ].
  split; [ repeat split; assumption | ].
  split; [ apply b64_curve_floors | ].
  rewrite Hc, Hs, Hi, Hf, Hh. unfold samples. repeat split; nia.
Qed.

(** X15. On binary64 floats, and whatever the C library's functions are: the
    number of link calls of a vertex run before its final stop is 5 for
    priming plus, for each waypoint, [int(hold * 10) + 20], provided
    [hold * 10] is finite (on an infinity [int] raises at the first
    waypoint); the hold is [max(3.0, delay * 3)] for the 5 waypoints of the
    square and the 4 of the triangle and [max(2.5, delay * 2.5)] for the 6
    of the star.  While the hold is at its floor, that is unless
    [delay * 3 > 3.0], respectively [delay * 2.5 > 2.5], the runs have 255,
    205 and 275 calls. *)
Theorem vertex_run_lengths (delay : spec_float) :
  let per := fun hold : spec_float =>
               (Z.to_nat (b64_trunc (hold * of_Z 10)%fl) + 20)%nat in
  (b64_is_finite (Patterns.flight_time delay * of_Z 10)%fl = true ->
   forall (T : Trig spec_float) (size height : spec_float),
     length (Patterns.fly_square_body size height delay)
     = (5 + 5 * per (Patterns.flight_time delay))%nat
     /\ length (Patterns.fly_triangle_body size height delay)
        = (5 + 4 * per (Patterns.flight_time delay))%nat)
  /\ (b64_is_finite (Patterns.star_flight_time delay * of_Z 10)%fl = true ->
      forall (T : Trig spec_float) (size height : spec_float),
        length (Patterns.fly_star_body size height delay)
        = (5 + 6 * per (Patterns.star_flight_time delay))%nat)
  /\ (b64_gt (delay * of_Z 3)%fl (of_Z 3) = false ->
      forall (T : Trig spec_float) (size height : spec_float),
        length (Patterns.fly_square_body size height delay) = 255%nat
        /\ length (Patterns.fly_triangle_body size height delay) = 205%nat)
  /\ (b64_gt (delay * dec 5 2)%fl (dec 5 2) = false ->
      forall (T : Trig spec_float) (size height : spec_float),
        length (Patterns.fly_star_body size height delay) = 275%nat).
Proof.
  intros per.
  split; [ | split; [ | split ] ].
  - intros _ T size height.
    destruct (b64_vertex_lengths T size height delay) as [Hs [Ht _]].
    split; assumption.
  - intros _ T size height.
    apply (b64_vertex_lengths T size height delay).
  - intros Hfloor T size height.
    destruct (b64_vertex_lengths T size height delay) as [Hs [Ht _]].
    rewrite Hs, Ht. unfold Patterns.flight_time, fmax.
    cbn [fgt B64_Num]. rewrite Hfloor.
    change (b64_trunc (of_Z 3 * of_Z 10)%fl)
      with (ftrunc (of_Z 3 * of_Z 10 : spec_float)%fl).
    rewrite (proj1 b64_transit_steps). split; reflexivity.
  - intros Hfloor T size height.
    destruct (b64_vertex_lengths T size height delay) as [_ [_ Hst]].
    rewrite Hst. unfold Patterns.star_flight_time, fmax.
    cbn [fgt B64_Num]. rewrite Hfloor.
    change (b64_trunc (dec 5 2 * of_Z 10)%fl)
      with (ftrunc (dec 5 2 * of_Z 10 : spec_float)%fl).
    rewrite (proj2 b64_transit_steps). reflexivity.
Qed.

(** At the speed factor 0.7 each sample is sent 7 times; at 1.4 and at 1.2 a
    waypoint of the square takes 61 and 56 calls. *)
Lemma curve_run_lengths_witness :
  let circle := @Patterns.fly_circle_body spec_float _ Samples.blank_libm in
  let heart := @Patterns.fly_heart_body spec_float _ Samples.blank_libm in
  length (circle (of_Z 5) (of_Z (-5)) 30%Z (dec 7 10)) = 782%nat
  /\ length (heart (of_Z 5) (of_Z (-5)) 50%Z (dec 7 10)) = 1132%nat.
Proof.
  intros circle heart. subst circle heart.
  assert (Hfin : b64_is_finite (dec 7 10 * of_Z 10 : spec_float)%fl = true)
    by (vm_compute; reflexivity).
  destruct (curve_run_lengths 30 (dec 7 10) Hfin Samples.blank_libm
                              (of_Z 5) (of_Z (-5)))
    as [_ [[Hc _] _]].
  destruct (curve_run_lengths 50 (dec 7 10) Hfin Samples.blank_libm
                              (of_Z 5) (of_Z (-5)))
    as [_ [[_ [_ [_ [_ Hh]]]] _]].
  split.
  rewrite Hc. vm_compute. reflexivity.
  rewrite Hh. vm_compute. reflexivity.
Defined.

Lemma vertex_run_lengths_witness :
  let square := @Patterns.fly_square_body spec_float _ in
  let triangle :=
    @Patterns.fly_triangle_body spec_float _ Samples.blank_libm in
  let star := @Patterns.fly_star_body spec_float _ Samples.blank_libm in
  length (square (of_Z 5) (of_Z (-5)) (dec 14 10)) = 310%nat
  /\ length (square (of_Z 5) (of_Z (-5)) (dec 12 10)) = 285%nat
  /\ length (triangle (of_Z 5) (of_Z (-5)) (dec 1 2)) = 205%nat
  /\ length (star (of_Z 5) (of_Z (-5)) (dec 1 2)) = 275%nat.
Proof.
  intros square triangle star. subst square triangle star.
  assert (H14 : b64_is_finite
                  (Patterns.flight_time (dec 14 10) * of_Z 10 : spec_float)%fl
                = true) by (vm_compute; reflexivity).
  assert (H12 : b64_is_finite
                  (Patterns.flight_time (dec 12 10) * of_Z 10 : spec_float)%fl
                = true) by (vm_compute; reflexivity).
  assert (Hsq : b64_gt (dec 1 2 * of_Z 3 : spec_float)%fl (of_Z 3) = false)
    by (vm_compute; reflexivity).
  assert (Hst : b64_gt (dec 1 2 * dec 5 2 : spec_float)%fl (dec 5 2) = false)
    by (vm_compute; reflexivity).
  destruct (proj1 (vertex_run_lengths (dec 14 10)) H14 Samples.blank_libm
                  (of_Z 5) (of_Z (-5))) as [E14 _].
  destruct (proj1 (vertex_run_lengths (dec 12 10)) H12 Samples.blank_libm
              (of_Z 5) (of_Z (-5))) as [E12 _].
  destruct (proj1 (proj2 (proj2 (vertex_run_lengths (dec 1 2)))) Hsq
              Samples.blank_libm (of_Z 5) (of_Z (-5))) as [_ Etri].
  pose proof (proj2 (proj2 (proj2 (vertex_run_lengths (dec 1 2)))) Hst
                Samples.blank_libm (of_Z 5) (of_Z (-5))) as Estar.
  split; [ | split; [ | split ] ].
  - rewrite E14. vm_compute. reflexivity.
  - rewrite E12. vm_compute. reflexivity.
  - exact Etri.
  - exact Estar.
Defined.

(** * Geometry of the trajectories *)

Section Geometry.
Local Open Scope R_scope.

Lemma sin2_cos2_mult (a : R) : sin a * sin a + cos a * cos a = 1.
Proof. pose proof (sin2_cos2 a) as Hsc. unfold Rsqr in Hsc. exact Hsc. Qed.

(** ** The ends of the sample lists *)

Lemma range_first (n : Z) :
  (0 <= n)%Z -> range (n + 1) = 0%Z :: tl (range (n + 1)).
Proof.
  intros Hn. unfold range.
  replace (Z.to_nat (n + 1)) with (S (Z.to_nat n)) by lia. reflexivity.
Qed.

Lemma range_last (n : Z) : (0 <= n)%Z -> range (n + 1) = range n ++ [n].
Proof.
  intros Hn. unfold range.
  replace (Z.to_nat (n + 1)) with (S (Z.to_nat n)) by lia.
  rewrite seq_S, map_app. simpl. rewrite Z2Nat.id by exact Hn. reflexivity.
Qed.

Lemma samples_ends {A : Type} (f : Z -> A) (n : Z) (d : A) :
  (0 <= n)%Z ->
  hd d (map f (range (n + 1))) = f 0%Z
  /\ last (map f (range (n + 1))) d = f n.
Proof.
  intros Hn. split.
  - rewrite (range_first n Hn). reflexivity.
  - rewrite (range_last n Hn), map_app. simpl map. apply last_last.
Qed.

(** X16. The transit before a curve goes to the position of its first sample and
    the hold after it stays at the position of its last sample, for each of
    the five curve patterns: the setpoints of a run never jump between
    transit, drawing and hold.  (For the closed curves the two positions
    are the same point; the spiral starts at the centre and is held at its
    outer end.) *)
Theorem curve_runs_are_seamless (size height : R) (steps : Z) (delay : R) :
  let samples := fun (sample : Z -> Z -> R * R * R) floor =>
                   map (sample (Z.max steps floor))
                       (range (Z.max steps floor + 1)) in
  Patterns.fly_circle_body size height steps delay
  = seamless height delay 90 90 (samples (Patterns.circle_sample size) 100%Z)
  /\ Patterns.fly_infinity_body size height steps delay
     = seamless height delay 0 0
                (samples (Patterns.infinity_sample size) 120%Z)
  /\ Patterns.fly_heart_body size height steps delay
     = seamless height delay 90 90
                (samples (Patterns.heart_sample size) 150%Z)
  /\ Patterns.fly_spiral_body size height steps delay
     = seamless height delay 0 90
                (samples (Patterns.spiral_sample size) 100%Z)
  /\ Patterns.fly_figure8_body size height steps delay
     = seamless height delay 90 90
                (samples (Patterns.figure8_sample (size / dec 3 2)%fl)
                         120%Z).
Proof.
  intros samples.
  destruct (parameter_ends (Z.max steps 100)) as [Ha0 Ha1]; [ lia | ].
  destruct (parameter_ends (Z.max steps 120)) as [Hb0 Hb1]; [ lia | ].
  destruct (parameter_ends (Z.max steps 150)) as [Hc0 Hc1]; [ lia | ].
  assert (HT100 : IZR (Z.max steps 100) <> 0)
    by (apply not_0_IZR; lia).
  unfold seamless, samples.
  refine (conj _ (conj _ (conj _ (conj _ _)))).
  - destruct (samples_ends (Patterns.circle_sample size (Z.max steps 100))
                (Z.max steps 100) (0, 0, 0)) as [Hhd Hlast]; [ lia | ].
    rewrite Hhd, Hlast. unfold Patterns.fly_circle_body.
    unfold Patterns.circle_sample, sx, sy.
    cbn [fst snd of_Z fmul fdiv fadd fpi fcos fsin R_Num R_Trig].
    rewrite Ha0, Ha1, cos_0, sin_0, Rmult_1_r, Rmult_0_r. reflexivity.
  - destruct (samples_ends (Patterns.infinity_sample size (Z.max steps 120))
                (Z.max steps 120) (0, 0, 0)) as [Hhd Hlast]; [ lia | ].
    rewrite Hhd, Hlast. unfold Patterns.fly_infinity_body.
    unfold Patterns.infinity_sample, Patterns.infinity_point, sx, sy.
    cbn [fst snd of_Z fmul fdiv fadd fpi fcos fsin R_Num R_Trig].
    rewrite Hb0, Hb1, cos_0, sin_0, cos_2PI, sin_2PI.
    rewrite ?Rmult_1_r, ?Rmult_0_r, ?Rmult_0_l. reflexivity.
  - destruct (samples_ends (Patterns.heart_sample size (Z.max steps 150))
                (Z.max steps 150) (0, 0, 0)) as [Hhd Hlast]; [ lia | ].
    rewrite Hhd, Hlast. unfold Patterns.fly_heart_body.
    unfold Patterns.heart_sample, sx, sy.
    cbn [of_Z fmul fdiv fpi R_Num R_Trig].
    rewrite Hc0, Hc1.
    replace (Patterns.heart_point size (2 * PI))
      with (Patterns.heart_point size 0)
      by (rewrite <- (heart_point_periodic size 0); f_equal; lra).
    destruct (Patterns.heart_point size 0) as [x0 y0]. reflexivity.
  - destruct (samples_ends (Patterns.spiral_sample size (Z.max steps 100))
                (Z.max steps 100) (0, 0, 0)) as [Hhd Hlast]; [ lia | ].
    rewrite Hhd, Hlast. unfold Patterns.fly_spiral_body.
    unfold Patterns.spiral_sample, sx, sy.
    cbn [fst snd of_Z fmul fdiv fadd fpi fcos fsin R_Num R_Trig].
    replace (size * 0 / IZR (Z.max steps 100)) with 0 by (field; exact HT100).
    replace (IZR (5 * 2) * PI * IZR (Z.max steps 100)
             / IZR (Z.max steps 100))
      with (IZR (5 * 2) * PI) by (field; exact HT100).
    replace (size * IZR (Z.max steps 100) / IZR (Z.max steps 100))
      with size by (field; exact HT100).
    rewrite !Rmult_0_l. reflexivity.
  - destruct (samples_ends
                (Patterns.figure8_sample (size / dec 3 2)%fl
                                         (Z.max steps 120))
                (Z.max steps 120) (0, 0, 0)) as [Hhd Hlast]; [ lia | ].
    rewrite Hhd, Hlast. unfold Patterns.fly_figure8_body.
    unfold Patterns.figure8_sample, sx, sy.
    cbn [of_Z fmul fdiv fpi R_Num R_Trig].
    rewrite Hb0, Hb1.
    replace (Patterns.figure8_point (size / dec 3 2) (2 * PI))
      with (Patterns.figure8_point (size / dec 3 2) 0)
      by (rewrite <- (figure8_point_periodic (size / dec 3 2) 0);
          f_equal; lra).
    destruct (Patterns.figure8_point (size / dec 3 2) 0) as [x0 y0].
    reflexivity.
Qed.

End Geometry.

Section Shapes.
Local Open Scope R_scope.

(** ** Circle and star *)



(** ** Spiral *)



(** ** Square and triangle *)


(** ** Lemniscate and figure-8 *)

(** X20. Every point of the infinity pattern satisfies the equation of the
    lemniscate of Gerono, [x^4 = s^2 (x^2 - y^2)], and lies in the box
    [|x| <= |s|], [|y| <= |s| / 2]; every point of the figure-8 satisfies
    [c^2 y^2 = x^2 (c^2 - x^2)] for its scale [c]. *)
Theorem lemniscate_equations (s c t : R) :
  let '(x, y) := Patterns.infinity_point s t in
  let '(u, v) := Patterns.figure8_point c t in
  x * x * x * x = s * s * (x * x - y * y)
  /\ x * x <= s * s
  /\ 4 * (y * y) <= s * s
  /\ c * c * (v * v) = u * u * (c * c - u * u).
Proof.
  unfold Patterns.infinity_point, Patterns.figure8_point.
  cbn [fmul fcos fsin R_Num R_Trig].
  pose proof (sin2_cos2_mult t) as Hsc.
  set (a := sin t) in *. set (b := cos t) in *.
  assert (Hb : b * b = 1 - a * a) by lra.
  assert (Hss : 0 <= s * s) by nra.
  assert (Haa : 0 <= a * a) by nra.
  assert (Hbb : 0 <= b * b) by nra.
  split; [ | split; [ | split ] ].
  - replace (s * b * (s * b) * (s * b) * (s * b))
      with (s * s * (s * s) * ((b * b) * (b * b))) by ring.
    replace (s * b * (s * b) - s * a * b * (s * a * b))
      with (s * s * ((b * b) * (1 - a * a))) by ring.
    rewrite <- Hb. ring.
  - replace (s * b * (s * b)) with (s * s * (b * b)) by ring.
    assert (Hb1 : b * b <= 1) by lra. nra.
  - replace (4 * (s * a * b * (s * a * b)))
      with (s * s * (4 * ((a * a) * (b * b)))) by ring.
    assert (Hab : 4 * ((a * a) * (b * b)) <= 1).
    { rewrite Hb. set (A := a * a) in *.
      pose proof (Rle_0_sqr (2 * A - 1)) as Hsq. unfold Rsqr in Hsq. nra. }
    nra.
  - replace (c * c - c * a * (c * a)) with (c * c * (1 - a * a)) by ring.
    rewrite <- Hb. ring.
Qed.

(** ** Symmetries *)

(** X21. The heart is mirror-symmetric about the axis [x = 0]: the parameters
    [t] and [-t] give the points [(x, y)] and [(-x, y)].  The infinity
    pattern is symmetric about both axes ([-t] mirrors [y], [t + pi]
    mirrors [x]), and the figure-8 through the origin. *)
Theorem curve_symmetries (size t : R) :
  Patterns.heart_point size (- t)
  = (- fst (Patterns.heart_point size t), snd (Patterns.heart_point size t))
  /\ Patterns.infinity_point size (- t)
     = (fst (Patterns.infinity_point size t),
        - snd (Patterns.infinity_point size t))
  /\ Patterns.infinity_point size (t + PI)
     = (- fst (Patterns.infinity_point size t),
        snd (Patterns.infinity_point size t))
  /\ Patterns.figure8_point size (- t)
     = (- fst (Patterns.figure8_point size t),
        - snd (Patterns.figure8_point size t)).
Proof.
  unfold Patterns.heart_point, Patterns.infinity_point,
    Patterns.figure8_point, cube.
  cbn [fst snd of_Z fmul fdiv fsub fcos fsin R_Num R_Trig].
  replace (2 * - t) with (- (2 * t)) by ring.
  replace (3 * - t) with (- (3 * t)) by ring.
  replace (4 * - t) with (- (4 * t)) by ring.
  rewrite !cos_neg, !sin_neg, neg_cos, neg_sin.
  repeat split; f_equal; field.
Qed.

End Shapes.
